(** * Azure Maps CSV geocoder: a shallow embedding of [azure_geocoder.py]

    The development follows the source bottom-up: the Python built-ins the
    program relies on (string methods, float arithmetic and conversion,
    [str()], truthiness, [dict.get]), the effects of the program (console,
    HTTP requests, pauses, files), then the Address Builder
    [build_address], the Geocoding Client [geocode_address] and the Pipeline
    Driver [main].  The properties follow the definitions.

    A Python [str] is modelled by [string], a character being a code point
    below 256; a Python [float] by a binary64 number of [PrimFloat]; a
    Python [int] by [Z]. *)

From Stdlib Require Import ZArith List String Ascii Bool Lia PeanoNat.
From Stdlib Require Import DecimalString.
From Stdlib Require Import Floats.PrimFloat Floats.SpecFloat Floats.FloatOps.
Import ListNotations.

Local Open Scope list_scope.
Local Open Scope string_scope.
Local Open Scope nat_scope.

(** ** Python strings *)

Module PyStr.

Definition code (c : ascii) : nat := nat_of_ascii c.

(** The double quote and the line feed, which have no literal here. *)
Definition dquote : ascii := ascii_of_nat 34.
Definition newline : string := String (ascii_of_nat 10) EmptyString.

(** [c.isspace()]: the characters that [str.strip()] removes.  In the
    range modelled these are TAB..CR (9-13), FS..US (28-31), the space
    (32), NEL (133) and the no-break space (160). *)
Definition isspace (c : ascii) : bool :=
  ((9 <=? code c) && (code c <=? 13)) || ((28 <=? code c) && (code c <=? 32))
  || (code c =? 133) || (code c =? 160).

(** [s.lstrip(chars)] and [s.rstrip(chars)], the set [chars] given by its
    membership test. *)
Fixpoint lstrip_with (drop : ascii -> bool) (s : string) : string :=
  match s with
  | EmptyString => EmptyString
  | String c s' => if drop c then lstrip_with drop s' else s
  end.

Fixpoint rstrip_with (drop : ascii -> bool) (s : string) : string :=
  match s with
  | EmptyString => EmptyString
  | String c s' =>
      match rstrip_with drop s' with
      | EmptyString => if drop c then EmptyString else String c EmptyString
      | r => String c r
      end
  end.

(** [s.strip()] *)
Definition strip (s : string) : string :=
  rstrip_with isspace (lstrip_with isspace s).

(** [s.strip(chars)] where [chars] is the double quote alone. *)
Definition strip_dquote (s : string) : string :=
  rstrip_with (Ascii.eqb dquote) (lstrip_with (Ascii.eqb dquote) s).

(** [bool(s)]: the empty string is the only falsy one. *)
Definition truthy (s : string) : bool :=
  match s with
  | EmptyString => false
  | String _ _ => true
  end.

(** [sep.join(parts)] *)
Definition join (sep : string) (parts : list string) : string :=
  String.concat sep parts.

(** [s[:n]] for a non-negative [n] *)
Fixpoint take (n : nat) (s : string) : string :=
  match n, s with
  | S n', String c s' => String c (take n' s')
  | _, _ => EmptyString
  end.

(** [s * n] *)
Fixpoint repeat (s : string) (n : nat) : string :=
  match n with
  | O => EmptyString
  | S n' => s ++ repeat s n'
  end.

(** [str(z)] for an [int] *)
Definition of_int (z : Z) : string := NilZero.string_of_int (Z.to_int z).

Fixpoint contains (c : ascii) (s : string) : bool :=
  match s with
  | EmptyString => false
  | String d s' => Ascii.eqb c d || contains c s'
  end.

(** [c.isprintable()] *)
Definition isprintable (c : ascii) : bool :=
  ((32 <=? code c) && (code c <? 127))
  || ((161 <=? code c) && negb (code c =? 173)).

Definition hex_digit (n : nat) : ascii :=
  match get n "0123456789abcdef" with
  | Some c => c
  | None => "0"%char
  end.

(** One character of [repr(s)], inside the quotes [quote]. *)
Definition repr_char (quote c : ascii) : string :=
  if Ascii.eqb c quote || Ascii.eqb c "\"%char then String "\" (String c EmptyString)
  else if code c =? 9 then "\t"
  else if code c =? 10 then "\n"
  else if code c =? 13 then "\r"
  else if isprintable c then String c EmptyString
  else String "\" (String "x" (String (hex_digit (code c / 16))
                                 (String (hex_digit (code c mod 16)) EmptyString))).

Fixpoint repr_chars (quote : ascii) (s : string) : string :=
  match s with
  | EmptyString => EmptyString
  | String c s' => repr_char quote c ++ repr_chars quote s'
  end.

(** [repr(s)]: single quotes, unless the string has a single quote and no
    double quote. *)
Definition repr (s : string) : string :=
  let quote := if contains "'"%char s && negb (contains dquote s)
               then dquote else "'"%char in
  String quote (repr_chars quote s ++ String quote EmptyString).

(** A string made of white space only (the empty string included). *)
Fixpoint blank (s : string) : bool :=
  match s with
  | EmptyString => true
  | String c s' => isspace c && blank s'
  end.

End PyStr.

(** ** Python floats

    [repr] prints the shortest decimal that rounds back to the float;
    [float(s)] and the divisions round the exact value to the nearest
    float, ties to even. *)

Module PyFloat.

Local Open Scope Z_scope.

(** The nearest binary64 number to the rational [p / q] ([q > 0]), ties to even. *)
Definition nearest (p q : Z) : spec_float :=
  match p, q with
  | Z0, _ => S754_zero false
  | Zpos p', Zpos q' => SFdiv prec emax (S754_finite false p' 0) (S754_finite false q' 0)
  | Zneg p', Zpos q' => SFdiv prec emax (S754_finite true p' 0) (S754_finite false q' 0)
  | _, _ => S754_nan
  end.

(** Largest [k] (searching upwards from [k]) with [s * 10^k <= r]. *)
Fixpoint log10_up (fuel : nat) (r s : Z) (k : Z) : Z :=
  match fuel with
  | O => k
  | S fuel' => if s * 10 <=? r then log10_up fuel' r (s * 10) (k + 1) else k
  end.

Fixpoint log10_down (fuel : nat) (r s : Z) (k : Z) : Z :=
  match fuel with
  | O => k
  | S fuel' => if r <? s then log10_down fuel' (r * 10) s (k - 1) else k
  end.

(** [floor (log10 (r / s))] for positive [r] and [s]. *)
Definition floor_log10 (r s : Z) : Z :=
  if s <=? r then log10_up 400 r s 0 else log10_down 400 r s 0.

(** One step of the digit search: [r / s] is the value scaled so that its
    integer part [t] has [n] digits; [mm / s] and [mp / s] are the scaled
    distances to the lower and upper rounding boundaries. *)
Fixpoint shortest (fuel : nat) (even : bool) (r s mm mp : Z) : Z * nat :=
  let t := r / s in
  let b := r mod s in
  let lo_ok := (b <? mm) || (even && (b =? mm)) in
  let hi_strict := s <? b + mp in
  let hi_edge := even && (b + mp =? s) in
  if hi_edge then ((if lo_ok then t else t + 1), 0%nat)
  else if lo_ok then
    ((if hi_strict && ((s <? 2 * b) || ((2 * b =? s) && Z.odd t)) then t + 1 else t), 0%nat)
  else if hi_strict then (t + 1, 0%nat)
  else match fuel with
       | O => (t, 0%nat)
       | S fuel' =>
           let '(d, n) := shortest fuel' even (r * 10) s (mm * 10) (mp * 10) in
           (d, S n)
       end.

Fixpoint strip_zeros (fuel : nat) (d : Z) : Z :=
  match fuel with
  | O => d
  | S fuel' => if (d mod 10 =? 0) && negb (d =? 0) then strip_zeros fuel' (d / 10) else d
  end.

Definition digits_of (d : Z) : string := NilZero.string_of_int (Z.to_int d).

(** The shortest digit string that rounds to [m * 2^e], with the position
    of its decimal point: the value is [0.d1d2... * 10^decpt]. *)
Definition shortest_digits (m : positive) (e : Z) : string * Z :=
  let boundary := (Zpos m =? 2 ^ 52) && (-1074 <? e) in
  let even := Z.even (Zpos m) in
  let '(r, s, mm, mp) :=
    if 0 <=? e then
      if boundary then (Zpos m * 2 ^ e * 4, 4, 2 ^ e, 2 ^ (e + 1))
      else (Zpos m * 2 ^ e * 2, 2, 2 ^ e, 2 ^ e)
    else
      if boundary then (Zpos m * 4, 2 ^ (2 - e), 1, 2)
      else (Zpos m * 2, 2 ^ (1 - e), 1, 1) in
  let k := floor_log10 r s in
  let '(r', s') := if 0 <=? k then (r, s * 10 ^ k) else (r * 10 ^ (- k), s) in
  let '(mm', mp') := if 0 <=? k then (mm, mp) else (mm * 10 ^ (- k), mp * 10 ^ (- k)) in
  let '(d, n) := shortest 20 even r' s' mm' mp' in
  let carry := 10 ^ (Z.of_nat n + 1) <=? d in
  (digits_of (strip_zeros 25 d), if carry then k + 2 else k + 1).

Fixpoint zeros (n : nat) : string :=
  match n with O => "" | S n' => String "0" (zeros n') end.

Definition exponent_str (e : Z) : string :=
  let a := digits_of (Z.abs e) in
  (if e <? 0 then "-" else "+") ++ (if Z.abs e <? 10 then "0" ++ a else a).

(** [repr] of the digits: fixed notation for [-4 < decpt <= 16], exponent
    notation otherwise; a result without fraction gets [.0]. *)
Definition format_repr (digits : string) (decpt : Z) : string :=
  let n := Z.of_nat (String.length digits) in
  if (decpt <=? -4) || (16 <? decpt) then
    match digits with
    | String d EmptyString => String d EmptyString ++ "e" ++ exponent_str (decpt - 1)
    | String d rest => String d ("." ++ rest) ++ "e" ++ exponent_str (decpt - 1)
    | EmptyString => ""
    end
  else if decpt <=? 0 then "0." ++ zeros (Z.to_nat (- decpt)) ++ digits
  else if n <=? decpt then digits ++ zeros (Z.to_nat (decpt - n)) ++ ".0"
  else substring 0 (Z.to_nat decpt) digits ++ "."
       ++ substring (Z.to_nat decpt) (Z.to_nat (n - decpt)) digits.

Definition sign_str (s : bool) : string := if s then "-" else "".

(** [repr(x)], which is also [str(x)], for a float. *)
Definition repr (x : float) : string :=
  match Prim2SF x with
  | S754_nan => "nan"
  | S754_infinity s => sign_str s ++ "inf"
  | S754_zero s => sign_str s ++ "0.0"
  | S754_finite s m e =>
      let '(digits, decpt) := shortest_digits m e in
      sign_str s ++ format_repr digits decpt
  end.

(** [bool(x)], that is [x != 0.0]: both zeros are falsy, [nan] is truthy. *)
Definition truthy (x : float) : bool := negb (PrimFloat.eqb x PrimFloat.zero).

(** [float(z)] for an [int] that a binary64 number can hold. *)
Definition of_int (z : Z) : float := SF2Prim (binary_normalize prec emax z 0 false).

(** [a / b] for two [int]s, [b] not zero: the nearest float to the
    quotient; a zero quotient takes the sign of [b]. *)
Definition int_truediv (a b : Z) : float :=
  if a =? 0 then (if b <? 0 then PrimFloat.neg_zero else PrimFloat.zero)
  else if b <? 0 then SF2Prim (nearest (- a) (- b))
  else SF2Prim (nearest a b).

(** [format(x, '.1f')]: the exact value rounded to one decimal, ties to
    even. *)
Definition format_1f (x : float) : string :=
  match Prim2SF x with
  | S754_nan => "nan"
  | S754_infinity s => sign_str s ++ "inf"
  | S754_zero s => sign_str s ++ "0.0"
  | S754_finite s m e =>
      let t :=
        if 0 <=? e then Zpos m * 10 * 2 ^ e
        else
          let n := Zpos m * 10 in
          let d := 2 ^ (- e) in
          let q := n / d in
          let r := n mod d in
          if (d <? 2 * r) || ((2 * r =? d) && Z.odd q) then q + 1 else q in
      sign_str s ++ digits_of (t / 10) ++ "." ++ digits_of (t mod 10)
  end.

(** ** [float(s)] *)

Definition code (c : ascii) : Z := Z.of_nat (nat_of_ascii c).
Definition is_digit (c : ascii) : bool := (48 <=? code c) && (code c <=? 57).
Definition digit_val (c : ascii) : Z := code c - 48.
Definition is_c_space (c : ascii) : bool :=
  ((9 <=? code c) && (code c <=? 13)) || (code c =? 32).
Definition lower (c : ascii) : ascii :=
  if (65 <=? code c) && (code c <=? 90) then ascii_of_nat (nat_of_ascii c + 32) else c.

(** Non-ASCII white space becomes a space, any other non-ASCII character
    (no decimal digit lies in the modelled range) becomes [?]. *)
Definition to_ascii (c : ascii) : ascii :=
  if code c <? 127 then c
  else if (code c =? 133) || (code c =? 160) then " "%char else "?"%char.

Fixpoint map_string (f : ascii -> ascii) (s : string) : string :=
  match s with
  | EmptyString => EmptyString
  | String c s' => String (f c) (map_string f s')
  end.

Fixpoint lstrip_c (s : string) : string :=
  match s with
  | String c s' => if is_c_space c then lstrip_c s' else s
  | EmptyString => EmptyString
  end.

Fixpoint rstrip_c (s : string) : string :=
  match s with
  | EmptyString => EmptyString
  | String c s' =>
      match rstrip_c s' with
      | EmptyString => if is_c_space c then EmptyString else String c EmptyString
      | r => String c r
      end
  end.

Fixpoint has_underscore (s : string) : bool :=
  match s with
  | EmptyString => false
  | String c s' => (code c =? 95) || has_underscore s'
  end.

(** Underscores are allowed between two digits only; they are removed. *)
Fixpoint drop_underscores (prev : ascii) (s : string) : option string :=
  match s with
  | EmptyString => if code prev =? 95 then None else Some EmptyString
  | String c s' =>
      if code c =? 95 then
        if is_digit prev then drop_underscores c s' else None
      else if (code prev =? 95) && negb (is_digit c) then None
      else option_map (String c) (drop_underscores c s')
  end.

(** Reads a run of digits: their value appended to [acc], their number,
    and the rest of the string. *)
Fixpoint read_digits (s : string) (acc : Z) (n : Z) : Z * Z * string :=
  match s with
  | String c s' => if is_digit c then read_digits s' (acc * 10 + digit_val c) (n + 1)
                   else (acc, n, s)
  | EmptyString => (acc, n, s)
  end.

Definition read_sign (s : string) : bool * string :=
  match s with
  | String "-" s' => (true, s')
  | String "+" s' => (false, s')
  | _ => (false, s)
  end.

(** The exponent part, when it is well formed; otherwise nothing is read. *)
Definition read_exponent (s : string) : Z * string :=
  match s with
  | String c s' =>
      if (code (lower c) =? 101) then
        let '(neg, s1) := read_sign s' in
        let '(e, n, s2) := read_digits s1 0 0 in
        if n =? 0 then (0, s) else ((if neg then - e else e), s2)
      else (0, s)
  | EmptyString => (0, s)
  end.

Definition starts_with (p s : string) : option string :=
  if String.prefix p (map_string lower (substring 0 (String.length p) s))
  then Some (substring (String.length p) (String.length s - String.length p) s)
  else None.

Definition parse_inf_or_nan (neg : bool) (s : string) : option (spec_float * string) :=
  match starts_with "inf" s with
  | Some r => match starts_with "inity" r with
              | Some r' => Some (S754_infinity neg, r')
              | None => Some (S754_infinity neg, r)
              end
  | None => match starts_with "nan" s with
            | Some r => Some (S754_nan, r)
            | None => None
            end
  end.

Definition parse_number (neg : bool) (s : string) : option (spec_float * string) :=
  let '(ip, n1, s1) := read_digits s 0 0 in
  let '(m, n2, s2) :=
    match s1 with
    | String "." s1' => read_digits s1' ip 0
    | _ => (ip, 0, s1)
    end in
  if (n1 + n2 =? 0) then None
  else
    let '(e, s3) := read_exponent s2 in
    let e10 := e - n2 in
    let v := if m =? 0 then S754_zero neg
             else if 0 <=? e10 then nearest ((if neg then - m else m) * 10 ^ e10) 1
             else nearest (if neg then - m else m) (10 ^ (- e10)) in
    Some (v, s3).

(** [float(s)]: [None] stands for [ValueError]. *)
Definition of_str (s : string) : option float :=
  let s0 := rstrip_c (lstrip_c (map_string to_ascii s)) in
  match (if has_underscore s0 then drop_underscores "000"%char s0 else Some s0) with
  | None => None
  | Some s1 =>
      let '(neg, s2) := read_sign s1 in
      match (match parse_number neg s2 with
             | Some r => Some r
             | None => parse_inf_or_nan neg s2
             end) with
      | Some (v, EmptyString) => Some (SF2Prim v)
      | _ => None
      end
  end.

End PyFloat.

(** ** Python values: what [response.json()] returns *)

Module Py.

#[local] Unset Elimination Schemes.
Inductive value : Type :=
| VNone
| VBool (b : bool)
| VInt (z : Z)
| VFloat (x : float)
| VStr (s : string)
| VList (items : list value)
| VDict (items : list (string * value)).
#[local] Set Elimination Schemes.

(** [type(v).__name__] *)
Definition type_name (v : value) : string :=
  match v with
  | VNone => "NoneType"
  | VBool _ => "bool"
  | VInt _ => "int"
  | VFloat _ => "float"
  | VStr _ => "str"
  | VList _ => "list"
  | VDict _ => "dict"
  end.

(** [bool(v)] *)
Definition truthy (v : value) : bool :=
  match v with
  | VNone => false
  | VBool b => b
  | VInt z => negb (Z.eqb z 0)
  | VFloat x => PyFloat.truthy x
  | VStr s => PyStr.truthy s
  | VList items => match items with [] => false | _ :: _ => true end
  | VDict items => match items with [] => false | _ :: _ => true end
  end.

(** [repr(v)] *)
Fixpoint repr (v : value) : string :=
  match v with
  | VNone => "None"
  | VBool true => "True"
  | VBool false => "False"
  | VInt z => PyStr.of_int z
  | VFloat x => PyFloat.repr x
  | VStr s => PyStr.repr s
  | VList items => "[" ++ PyStr.join ", " (map repr items) ++ "]"
  | VDict items =>
      "{" ++ PyStr.join ", "
               (map (fun kv => PyStr.repr (fst kv) ++ ": " ++ repr (snd kv)) items)
          ++ "}"
  end.

(** [str(v)] *)
Definition str (v : value) : string :=
  match v with
  | VStr s => s
  | _ => repr v
  end.

(** The value stored under [key] in the items of a dict (the keys of a
    dict are distinct). *)
Fixpoint lookup (key : string) (items : list (string * value)) : option value :=
  match items with
  | [] => None
  | (k, v) :: rest => if String.eqb k key then Some v else lookup key rest
  end.

End Py.

(** ** Exceptions *)

(** The exception classes the program names or can meet.  [Timeout] is a
    subclass of [RequestException]; every class is a subclass of
    [Exception], which also stands for the classes not listed.  The
    classes outside [Exception] ([KeyboardInterrupt], [SystemExit]), which
    stop the run from outside, are not modelled. *)
Inductive exc_class : Type :=
| Timeout
| RequestException
| FileNotFoundError
| StopIteration
| AttributeError
| TypeError
| KeyError
| IndexError
| ZeroDivisionError
| ValueError
| Exception.

(** A raised exception: its class and [str(e)]. *)
Record exc : Type := Raise { exc_type : exc_class; exc_str : string }.

(** [isinstance(e, cls)], which decides whether [except cls] catches [e]. *)
Definition isinstance (e : exc) (cls : exc_class) : bool :=
  match cls, exc_type e with
  | Exception, _ => true
  | RequestException, (Timeout | RequestException) => true
  | Timeout, Timeout => true
  | FileNotFoundError, FileNotFoundError => true
  | StopIteration, StopIteration => true
  | AttributeError, AttributeError => true
  | TypeError, TypeError => true
  | KeyError, KeyError => true
  | IndexError, IndexError => true
  | ZeroDivisionError, ZeroDivisionError => true
  | ValueError, ValueError => true
  | _, _ => false
  end.

(** ** The outside world *)

(** A row of the table: the fields of one CSV record. *)
Definition Row : Type := list string.

(** [requests.get(url, params=params, timeout=timeout)] *)
Record request : Type := Request {
  req_url : string;
  req_params : list (string * string);
  req_timeout : Z
}.

(** What the program looks at in a response: [status_code], and what
    [json()] returns or raises. *)
Record response : Type := Response {
  status_code : Z;
  json : exc + Py.value
}.

(** What the program does to the outside world, in order. *)
Inductive event : Type :=
| Print (text : string)        (* text written to the console, line end included *)
| Input (prompt : string)      (* a line read from the console *)
| Get (r : request)            (* an HTTP GET *)
| Sleep (seconds : float)      (* [time.sleep] *)
| WriteCsv (path : string) (table : list Row).  (* the rows given to the CSV writer *)

(** ** Computations

    A computation runs from the events so far, returns a value or raises,
    and leaves the events extended. *)

Definition M (A : Type) : Type := list event -> (exc + A) * list event.

Definition ret {A} (a : A) : M A := fun h => (inr a, h).

Definition bind {A B} (m : M A) (k : A -> M B) : M B :=
  fun h => match m h with
           | (inr a, h') => k a h'
           | (inl e, h') => (inl e, h')
           end.

Definition raise {A} (e : exc) : M A := fun h => (inl e, h).

(** A value or exception computed without effect. *)
Definition lift {A} (r : exc + A) : M A := fun h => (r, h).

Definition emit (ev : event) : M unit := fun h => (inr tt, (h ++ [ev])%list).

(** [try: body / except ...]: [handler e] is the clause that catches [e],
    if one does. *)
Definition try_except {A} (body : M A) (handler : exc -> option (M A)) : M A :=
  fun h => match body h with
           | (inr a, h') => (inr a, h')
           | (inl e, h') => match handler e with
                            | Some k => k h'
                            | None => (inl e, h')
                            end
           end.

Declare Scope monad_scope.
Delimit Scope monad_scope with M.
Notation "x <- m ;; k" := (bind m (fun x => k))
  (at level 61, m at next level, right associativity) : monad_scope.
Notation "m ;; k" := (bind m (fun _ => k))
  (at level 61, right associativity) : monad_scope.
Local Open Scope monad_scope.

(** [print(text)] and [print(text, end='')] *)
Definition print (text : string) : M unit := emit (Print (text ++ PyStr.newline)).
Definition print_noend (text : string) : M unit := emit (Print text).

(** ** Built-in operations that can raise *)

(** [v.get(key, default)] *)
Definition get (v : Py.value) (key : string) (default : Py.value) : exc + Py.value :=
  match v with
  | Py.VDict items =>
      inr (match Py.lookup key items with Some x => x | None => default end)
  | _ => inl (Raise AttributeError
                ("'" ++ Py.type_name v ++ "' object has no attribute 'get'"))
  end.

(** [len(v)] *)
Definition len (v : Py.value) : exc + Z :=
  match v with
  | Py.VStr s => inr (Z.of_nat (String.length s))
  | Py.VList items => inr (Z.of_nat (List.length items))
  | Py.VDict items => inr (Z.of_nat (List.length items))
  | _ => inl (Raise TypeError ("object of type '" ++ Py.type_name v ++ "' has no len()"))
  end.

(** [v[key]] for a string key *)
Definition getitem_key (v : Py.value) (key : string) : exc + Py.value :=
  match v with
  | Py.VDict items =>
      match Py.lookup key items with
      | Some x => inr x
      | None => inl (Raise KeyError (PyStr.repr key))
      end
  | Py.VList _ => inl (Raise TypeError "list indices must be integers or slices, not str")
  | Py.VStr _ => inl (Raise TypeError "string indices must be integers, not 'str'")
  | _ => inl (Raise TypeError ("'" ++ Py.type_name v ++ "' object is not subscriptable"))
  end.

(** [v[0]] *)
Definition getitem_0 (v : Py.value) : exc + Py.value :=
  match v with
  | Py.VList (x :: _) => inr x
  | Py.VList [] => inl (Raise IndexError "list index out of range")
  | Py.VStr (String c _) => inr (Py.VStr (String c EmptyString))
  | Py.VStr EmptyString => inl (Raise IndexError "string index out of range")
  | Py.VDict _ => inl (Raise KeyError "0")
  | _ => inl (Raise TypeError ("'" ++ Py.type_name v ++ "' object is not subscriptable"))
  end.

(** A running total that starts as the [int] 0 and becomes a [float]. *)
Inductive number : Type :=
| NInt (z : Z)
| NFloat (x : float).

(** [total + x] for a float [x] *)
Definition number_add (total : number) (x : float) : number :=
  match total with
  | NInt z => NFloat (PrimFloat.add (PyFloat.of_int z) x)
  | NFloat t => NFloat (PrimFloat.add t x)
  end.

(** [a / b] for two [int]s *)
Definition int_truediv (a b : Z) : exc + float :=
  if Z.eqb b 0 then inl (Raise ZeroDivisionError "division by zero")
  else inr (PyFloat.int_truediv a b).

(** [total / n] for an [int] [n] *)
Definition number_truediv (total : number) (n : Z) : exc + float :=
  match total with
  | NInt z => int_truediv z n
  | NFloat t =>
      if Z.eqb n 0 then inl (Raise ZeroDivisionError "float division by zero")
      else inr (PrimFloat.div t (PyFloat.of_int n))
  end.

(** [float(s)] for a string *)
Definition float_of_str (s : string) : exc + float :=
  match PyFloat.of_str s with
  | Some x => inr x
  | None => inl (Raise ValueError
                   ("could not convert string to float: " ++ PyStr.repr s))
  end.

(** ** The program *)

Definition AZURE_MAPS_URL : string :=
  "https://atlas.microsoft.com/search/address/json".

(** Delay between requests in milliseconds. *)
Definition DELAY_MS : Z := 200.

(** The argument of [time.sleep]: [DELAY_MS / 1000.0]. *)
Definition delay_seconds : float :=
  PrimFloat.div (PyFloat.of_int DELAY_MS) (PyFloat.of_int 1000).

(** *** Address Builder *)

(** [build_address(row)]: columns J, K, L, M (indices 9, 10, 11, 12);
    J = street 1, K = street 2, L = city, M = ZIP. *)
Definition build_address (row : Row) : option string :=
  let street1 := if 9 <? List.length row then PyStr.strip (nth 9 row "") else "" in
  let street2 := if 10 <? List.length row then PyStr.strip (nth 10 row "") else "" in
  let city := if 11 <? List.length row then PyStr.strip (nth 11 row "") else "" in
  let zip_code := if 12 <? List.length row then PyStr.strip (nth 12 row "") else "" in
  let parts := filter PyStr.truthy [street1; street2; city; zip_code] in
  match parts with
  | [] => None
  | _ :: _ => Some (PyStr.join ", " parts)
  end.

(** *** Geocoding Client *)

(** [(lat, lon, confidence, status)] *)
Definition GeocodeResult : Type := string * string * string * string.

(** The state of the loop of [main]. *)
Record loop_state : Type := LoopState {
  results : list Row;
  success_count : Z;
  error_count : Z;
  total_confidence : number
}.

Section Program.

(** The subscription key of the source is a credential; it is a parameter
    here. *)
Variable SUBSCRIPTION_KEY : string.

(** The geocoding service: what a request yields, a response or an
    exception raised by [requests.get], given the events so far. *)
Variable server : list event -> request -> exc + response.

(** [sys.argv], the line [input()] reads when asked, the local time
    formatted as [%Y%m%d_%H%M%S], and what reading the CSV file at a path
    yields: its records, the header first, or an exception. *)
Variable argv : list string.
Variable typed : string.
Variable clock : string.
Variable read_csv : string -> exc + list Row.

Definition requests_get (url : string) (params : list (string * string))
    (timeout : Z) : M response :=
  fun h => (server h (Request url params timeout),
            (h ++ [Get (Request url params timeout)])%list).

Definition input (prompt : string) : M string :=
  _ <- emit (Input prompt) ;; ret typed.

Definition not_found : GeocodeResult := ("", "", "", "Not Found").

(** [geocode_address(address)]: geocode a single address using Azure Maps. *)
Definition geocode_address (address : option string) : M GeocodeResult :=
  match address with
  | None | Some EmptyString => ret ("", "", "", "No Address")
  | Some query =>
      let params := [("api-version", "1.0");
                     ("subscription-key", SUBSCRIPTION_KEY);
                     ("query", query);
                     ("limit", "1")] in
      try_except
        (response <- requests_get AZURE_MAPS_URL params 10 ;;
         if Z.eqb (status_code response) 200 then
           data <- lift (json response) ;;
           listed <- lift (get data "results" Py.VNone) ;;
           has_results <-
             (if Py.truthy listed then
                found <- lift (getitem_key data "results") ;;
                n <- lift (len found) ;;
                ret (Z.ltb 0 n)
              else ret false) ;;
           if has_results then
             found <- lift (getitem_key data "results") ;;
             result <- lift (getitem_0 found) ;;
             position <- lift (get result "position" (Py.VDict [])) ;;
             lat <- lift (get position "lat" (Py.VStr "")) ;;
             lon <- lift (get position "lon" (Py.VStr "")) ;;
             confidence <- lift (get result "score" (Py.VStr "")) ;;
             if Py.truthy lat && Py.truthy lon then
               ret (Py.str lat, Py.str lon, Py.str confidence, "Success")
             else ret not_found
           else ret not_found
         else if Z.eqb (status_code response) 401 then
           ret ("", "", "", "Error: Invalid API Key")
         else if Z.eqb (status_code response) 403 then
           ret ("", "", "", "Error: Forbidden")
         else if Z.eqb (status_code response) 429 then
           ret ("", "", "", "Error: Rate Limit")
         else
           ret ("", "", "", "Error: HTTP " ++ PyStr.of_int (status_code response)))
        (fun e =>
           if isinstance e Timeout then
             Some (ret ("", "", "", "Error: Timeout"))
           else if isinstance e RequestException then
             Some (ret ("", "", "", "Error: " ++ PyStr.take 50 (exc_str e)))
           else if isinstance e Exception then
             Some (ret ("", "", "", "Error: " ++ PyStr.take 50 (exc_str e)))
           else None)
  end.

(** *** Pipeline Driver *)

(** The counters after a row with this confidence and status: lines
    131-139 of the source. *)
Definition update_counters (st : loop_state) (confidence status : string)
    : M loop_state :=
  if String.eqb status "Success" then
    total <-
      (if PyStr.truthy confidence then
         try_except
           (x <- lift (float_of_str confidence) ;;
            ret (number_add (total_confidence st) x))
           (fun _ => Some (ret (total_confidence st)))
       else ret (total_confidence st)) ;;
    ret (LoopState (results st) (success_count st + 1) (error_count st) total)
  else
    ret (LoopState (results st) (success_count st) (error_count st + 1)
           (total_confidence st)).

(** One turn of [for i, row in enumerate(rows, 1)]. *)
Definition loop_body (total_rows i : Z) (row : Row) (st : loop_state)
    : M loop_state :=
  let address := build_address row in
  ratio <- lift (int_truediv i total_rows) ;;
  let progress := PrimFloat.mul ratio (PyFloat.of_int 100) in
  _ <- print_noend
         ("[" ++ PyStr.of_int i ++ "/" ++ PyStr.of_int total_rows ++ "] ("
          ++ PyFloat.format_1f progress ++ "%) Processing: "
          ++ match address with
             | Some (String _ _ as a) => a
             | _ => "No address"
             end
          ++ "...") ;;
  geocoded <- geocode_address address ;;
  let '(lat, lon, confidence, status) := geocoded in
  counted <- update_counters st confidence status ;;
  let result_row := (row ++ [lat; lon; confidence; status])%list in
  let st' := LoopState (results counted ++ [result_row])%list
               (success_count counted) (error_count counted)
               (total_confidence counted) in
  _ <- print (" " ++ status) ;;
  _ <- (if Z.ltb i total_rows then emit (Sleep delay_seconds) else ret tt) ;;
  ret st'.

Fixpoint main_loop (total_rows i : Z) (rows : list Row) (st : loop_state)
    : M loop_state :=
  match rows with
  | [] => ret st
  | row :: rest =>
      st' <- loop_body total_rows i row st ;;
      main_loop total_rows (i + 1)%Z rest st'
  end.

Definition initial_state : loop_state := LoopState [] 0 0 (NInt 0).

Definition result_columns : Row :=
  ["Latitude"; "Longitude"; "Confidence Score"; "Geocoding Status"].

(** The average line of the summary: lines 166-168 of the source. *)
Definition print_average (st : loop_state) : M unit :=
  if Z.ltb 0 (success_count st) then
    avg_confidence <- lift (number_truediv (total_confidence st) (success_count st)) ;;
    print ("Average confidence: " ++ PyFloat.format_1f avg_confidence ++ "%")
  else ret tt.

(** The body of the [try] of [main]. *)
Definition process (input_file output_file : string) : M unit :=
  records <- lift (read_csv input_file) ;;
  match records with
  | [] => raise (Raise StopIteration "")
  | headers :: rows =>
      let total_rows := Z.of_nat (List.length rows) in
      _ <- print ("Found " ++ PyStr.of_int total_rows ++ " rows to process"
                  ++ PyStr.newline) ;;
      let output_headers := (headers ++ result_columns)%list in
      st <- main_loop total_rows 1 rows initial_state ;;
      _ <- print (PyStr.newline ++ "Writing results to " ++ output_file ++ "...") ;;
      _ <- emit (WriteCsv output_file (output_headers :: results st)) ;;
      _ <- print (PyStr.newline ++ PyStr.repeat "=" 50) ;;
      _ <- print "GEOCODING COMPLETE!" ;;
      _ <- print (PyStr.repeat "=" 50) ;;
      _ <- print ("Total rows processed: " ++ PyStr.of_int total_rows) ;;
      _ <- print ("Successfully geocoded: " ++ PyStr.of_int (success_count st)) ;;
      _ <- print ("Failed: " ++ PyStr.of_int (error_count st)) ;;
      _ <- print_average st ;;
      _ <- print (PyStr.newline ++ "Output saved to: " ++ output_file) ;;
      print (PyStr.repeat "=" 50)
  end.

Definition main : M unit :=
  input_file <-
    (if 1 <? List.length argv then ret (nth 1 argv "")
     else
       _ <- print "Azure Maps CSV Geocoder" ;;
       _ <- print (PyStr.repeat "=" 50) ;;
       line <- input "Enter CSV file path: " ;;
       ret (PyStr.strip_dquote (PyStr.strip line))) ;;
  if negb (PyStr.truthy input_file) then print "Error: No file specified"
  else
    let timestamp := clock in
    let output_file := "geocoded_" ++ timestamp ++ ".csv" in
    _ <- print (PyStr.newline ++ "Reading: " ++ input_file) ;;
    _ <- print ("Output will be saved to: " ++ output_file) ;;
    _ <- print (PyStr.repeat "=" 50) ;;
    try_except (process input_file output_file)
      (fun e =>
         if isinstance e FileNotFoundError then
           Some (print ("Error: File '" ++ input_file ++ "' not found"))
         else if isinstance e Exception then
           Some (print ("Error: " ++ exc_str e))
         else None).

End Program.

(** ** Notions used to state the properties *)

(** *** The Address Builder as the specification words it *)

(** The positions of street 1, street 2, city and zip. *)
Definition address_columns : list nat := [9; 10; 11; 12].

(** The field at position [i] is blank, or the row is too short to have it. *)
Definition blank_or_absent (row : Row) (i : nat) : bool :=
  match nth_error row i with
  | None => true
  | Some s => PyStr.blank s
  end.

(** The designated fields that are present and not blank, in field order. *)
Definition non_blank_fields (row : Row) : list string :=
  flat_map (fun i => match nth_error row i with
                     | Some s => if PyStr.blank s then [] else [s]
                     | None => []
                     end) address_columns.

Definition spec_build_address (row : Row) : option string :=
  if forallb (blank_or_absent row) address_columns then None
  else Some (PyStr.join ", " (map PyStr.strip (non_blank_fields row))).

(** What the source computes for one column: the stripped field, or the
    empty string when the row is too short. *)
Definition column (row : Row) (i : nat) : string :=
  if i <? List.length row then PyStr.strip (nth i row "") else "".

(** *** The Geocoding Client *)

(** The request [geocode_address] sends for a query. *)
Definition geocode_request (key query : string) : request :=
  Request AZURE_MAPS_URL
    [("api-version", "1.0"); ("subscription-key", key);
     ("query", query); ("limit", "1")] 10.

(** The status the specification gives for a response that is not a 200. *)
Definition http_error_status (code : Z) : string :=
  if Z.eqb code 401 then "Error: Invalid API Key"
  else if Z.eqb code 403 then "Error: Forbidden"
  else if Z.eqb code 429 then "Error: Rate Limit"
  else "Error: HTTP " ++ PyStr.of_int code.

Definition status_of (g : GeocodeResult) : string := snd g.
Definition confidence_of (g : GeocodeResult) : string := snd (fst g).

Definition is_success (g : GeocodeResult) : bool :=
  String.eqb (status_of g) "Success".

(** The four fields of a result, in the order they are appended to a row. *)
Definition fields (g : GeocodeResult) : Row :=
  let '(lat, lon, confidence, status) := g in [lat; lon; confidence; status].

(** A service that gives the same answer to every request. *)
Definition constant_server (answer : exc + response)
    : list event -> request -> exc + response :=
  fun _ _ => answer.

(** The body of a response with one result. *)
Definition one_result (position : list (string * Py.value)) (score : float)
    : Py.value :=
  Py.VDict [("results",
             Py.VList [Py.VDict [("position", Py.VDict position);
                                 ("score", Py.VFloat score)]])].

(** The float 0.9. *)
Definition score_0_9 : float := 0x1.ccccccccccccdp-1%float.

(** The example of the specification: latitude 40.0, longitude -75.0,
    score 0.9. *)
Definition mock_body : Py.value :=
  one_result [("lat", Py.VFloat 40); ("lon", Py.VFloat (-75))] score_0_9.

(** A place on the equator: latitude 0.0, longitude -75.0. *)
Definition equator_position : list (string * Py.value) :=
  [("lat", Py.VFloat 0); ("lon", Py.VFloat (-75))].

Definition equator_body : Py.value := one_result equator_position score_0_9.

(** *** The Pipeline Driver *)

(** The total after a successful row: the confidence is added when it
    parses as a number. *)
Definition add_confidence (total : number) (confidence : string) : number :=
  match PyFloat.of_str confidence with
  | Some x => number_add total x
  | None => total
  end.

(** The state of the loop after a row geocoded as [g]. *)
Definition count_row (st : loop_state) (row : Row) (g : GeocodeResult)
    : loop_state :=
  LoopState (results st ++ [(row ++ fields g)%list])%list
    (if is_success g then (success_count st + 1)%Z else success_count st)
    (if is_success g then error_count st else (error_count st + 1)%Z)
    (if is_success g then add_confidence (total_confidence st) (confidence_of g)
     else total_confidence st).

Definition count_rows (st : loop_state) (rows : list Row)
    (gs : list GeocodeResult) : loop_state :=
  fold_left (fun s rg => count_row s (fst rg) (snd rg)) (combine rows gs) st.

(** The number of results that satisfy a test. *)
Definition count (p : GeocodeResult -> bool) (gs : list GeocodeResult) : Z :=
  Z.of_nat (List.length (filter p gs)).

(** The blocks of events of the turns of a loop, [sep] between two turns. *)
Fixpoint join_blocks (sep : list event) (blocks : list (list event))
    : list event :=
  match blocks with
  | [] => []
  | [b] => b
  | b :: bs => (b ++ sep ++ join_blocks sep bs)%list
  end.

Definition is_sleep (ev : event) : bool :=
  match ev with
  | Sleep _ => true
  | _ => false
  end.

(** The pauses among some events. *)
Definition sleeps (evs : list event) : list event := filter is_sleep evs.

(** An event of a turn proper: console output or the request. *)
Definition turn_event (ev : event) : Prop :=
  match ev with
  | Print _ | Get _ => True
  | _ => False
  end.

(** The events of the turn of a row geocoded as [g]: the progress line,
    what the client does, the status line. *)
Definition turn_of (g : GeocodeResult) (b : list event) : Prop :=
  exists progress client,
    b = (Print progress :: client
           ++ [Print (" " ++ status_of g ++ PyStr.newline)])%list
    /\ Forall turn_event client.

(** The tables written, with their paths. *)
Fixpoint written (evs : list event) : list (string * list Row) :=
  match evs with
  | [] => []
  | WriteCsv path table :: rest => (path, table) :: written rest
  | _ :: rest => written rest
  end.

(** The requests sent. *)
Fixpoint requests_sent (evs : list event) : list request :=
  match evs with
  | [] => []
  | Get r :: rest => r :: requests_sent rest
  | _ :: rest => requests_sent rest
  end.

(** The path [main] reads: lines 82-87 of the source. *)
Definition input_path (argv : list string) (typed : string) : string :=
  if 1 <? List.length argv then nth 1 argv ""
  else PyStr.strip_dquote (PyStr.strip typed).

(** The name of the output file. *)
Definition output_path (clock : string) : string :=
  "geocoded_" ++ clock ++ ".csv".

(** What a result looks like: a success, or empty coordinates and
    confidence with a status that tells what went wrong. *)
Definition well_formed_result (g : GeocodeResult) : Prop :=
  let '(lat, lon, confidence, status) := g in
  status = "Success"
  \/ (lat = "" /\ lon = "" /\ confidence = ""
      /\ (status = "No Address" \/ status = "Not Found"
          \/ exists detail, status = "Error: " ++ detail)).

(** A row is geocoded as [g] when the client returns [g] for its address
    at some point of the run. *)
Definition geocoded (key : string)
    (server : list event -> request -> exc + response)
    (row : Row) (g : GeocodeResult) : Prop :=
  exists h h', geocode_address key server (build_address row) h = (inr g, h').

(** *** A small run, used to instantiate the properties *)

Definition demo_headers : Row :=
  ["Id"; "Name"; "C"; "D"; "E"; "F"; "G"; "H"; "I";
   "Street 1"; "Street 2"; "City"; "ZIP"].

Definition demo_rows : list Row :=
  [ ["1"; "Ada"; ""; ""; ""; ""; ""; ""; ""; " 1 Main St "; "  "; "Springfield"; "12345"];
    ["2"; "Bob"];
    ["3"; "Cy"; ""; ""; ""; ""; ""; ""; ""; ""; ""; "Nowhere"; ""] ].

(** The file [in.csv] holds the demo table; no other file exists. *)
Definition demo_read (path : string) : exc + list Row :=
  if String.eqb path "in.csv" then inr (demo_headers :: demo_rows)
  else inl (Raise FileNotFoundError
              ("[Errno 2] No such file or directory: " ++ PyStr.repr path)).

(** A service that knows one address and is out of quota for the others. *)
Definition demo_server (h : list event) (r : request) : exc + response :=
  match Py.lookup "query"
          (map (fun kv => (fst kv, Py.VStr (snd kv))) (req_params r)) with
  | Some (Py.VStr "1 Main St, Springfield, 12345") =>
      inr (Response 200 (inr mock_body))
  | _ => inr (Response 429 (inl (Raise Exception "")))
  end.

Definition demo_argv : list string := ["azure_geocoder.py"; "in.csv"].
Definition demo_clock : string := "20260101_120000".

(** *** Notions for the further properties *)

(** What a lookup gives with a default: [d.get(key, default)] on the
    items of a dict. *)
Definition lookup_or (key : string) (default : Py.value)
    (items : list (string * Py.value)) : Py.value :=
  match Py.lookup key items with
  | Some x => x
  | None => default
  end.

(** The events the client adds for an address: one request when there is
    an address to look up. *)
Definition request_events (key : string) (address : option string)
    : list event :=
  match address with
  | Some (String _ _ as query) => [Get (geocode_request key query)]
  | _ => []
  end.

(** The addresses of the rows that have one, in row order. *)
Definition addresses (rows : list Row) : list string :=
  flat_map (fun row => match build_address row with
                       | Some a => [a]
                       | None => []
                       end) rows.

(** The prompts shown to read a line from the console. *)
Fixpoint prompts (evs : list event) : list string :=
  match evs with
  | [] => []
  | Input prompt :: rest => prompt :: prompts rest
  | _ :: rest => prompts rest
  end.

(** The lines 82-87 of the source: nothing with a command-line argument,
    the title and the prompt without. *)
Definition prelude (argv : list string) : list event :=
  if 1 <? List.length argv then []
  else [Print ("Azure Maps CSV Geocoder" ++ PyStr.newline);
        Print (PyStr.repeat "=" 50 ++ PyStr.newline);
        Input "Enter CSV file path: "].

(** The lines 97-99 of the source. *)
Definition banner (input_file output_file : string) : list event :=
  [Print ((PyStr.newline ++ "Reading: " ++ input_file) ++ PyStr.newline);
   Print (("Output will be saved to: " ++ output_file) ++ PyStr.newline);
   Print (PyStr.repeat "=" 50 ++ PyStr.newline)].

(** The average line, when there is one. *)
Definition average_events (st : loop_state) : list event :=
  if Z.ltb 0 (success_count st) then
    match number_truediv (total_confidence st) (success_count st) with
    | inr avg => [Print (("Average confidence: " ++ PyFloat.format_1f avg ++ "%")
                         ++ PyStr.newline)]
    | inl _ => []
    end
  else [].

(** What the body of the [try] adds to the events when the table is
    read: the count, the turns of the loop, the table, the summary. *)
Definition process_events (output_file : string) (headers : Row)
    (total_rows : Z) (turns : list event) (st : loop_state) : list event :=
  ([Print (("Found " ++ PyStr.of_int total_rows ++ " rows to process"
            ++ PyStr.newline) ++ PyStr.newline)]
   ++ turns
   ++ [Print ((PyStr.newline ++ "Writing results to " ++ output_file ++ "...")
              ++ PyStr.newline);
       WriteCsv output_file ((headers ++ result_columns)%list :: results st);
       Print ((PyStr.newline ++ PyStr.repeat "=" 50) ++ PyStr.newline);
       Print ("GEOCODING COMPLETE!" ++ PyStr.newline);
       Print (PyStr.repeat "=" 50 ++ PyStr.newline);
       Print (("Total rows processed: " ++ PyStr.of_int total_rows)
              ++ PyStr.newline);
       Print (("Successfully geocoded: " ++ PyStr.of_int (success_count st))
              ++ PyStr.newline);
       Print (("Failed: " ++ PyStr.of_int (error_count st)) ++ PyStr.newline)]
   ++ average_events st
   ++ [Print ((PyStr.newline ++ "Output saved to: " ++ output_file)
              ++ PyStr.newline);
       Print (PyStr.repeat "=" 50 ++ PyStr.newline)])%list.

(** The rows of a table whose last field is the status Success. *)
Definition successes (table : list Row) : list Row :=
  filter (fun out => String.eqb (last out "") "Success") table.

(** A file system in which every path yields the same thing. *)
Definition constant_read (records : exc + list Row)
    : string -> exc + list Row :=
  fun _ => records.

(** The first result of the example response, and a body that holds it
    with a second result and another entry. *)
Definition mock_first : Py.value :=
  Py.VDict [("position", Py.VDict [("lat", Py.VFloat 40); ("lon", Py.VFloat (-75))]);
            ("score", Py.VFloat score_0_9)].

Definition crowded_body : Py.value :=
  Py.VDict [("summary", Py.VDict [("numResults", Py.VInt 2)]);
            ("results",
             Py.VList [mock_first;
                       Py.VDict [("position",
                                  Py.VDict [("lat", Py.VFloat 1);
                                            ("lon", Py.VFloat 2)])]])].

(** A string without white space at either end, and not empty. *)
Definition clean (p : string) : Prop :=
  (exists c r, p = String c r /\ PyStr.isspace c = false)
  /\ PyStr.rstrip_with PyStr.isspace p = p.

(** *** The statuses of a run *)

(** The turns of a run that goes on from the events [h]: the k-th block
    is the progress line, what the client does and the status line of the
    k-th row, and the k-th result is what the client returned at that very
    point of the run; a pause follows each turn but the last. *)
Fixpoint turns_from (key : string)
    (server : list event -> request -> exc + response)
    (h : list event) (rows : list Row) (gs : list GeocodeResult)
    (blocks : list (list event)) : Prop :=
  match rows, gs, blocks with
  | [], [], [] => True
  | row :: rows', g :: gs', b :: blocks' =>
      (exists progress client,
          b = (Print progress :: client
                 ++ [Print (" " ++ status_of g ++ PyStr.newline)])%list
          /\ geocode_address key server (build_address row)
               (h ++ [Print progress])%list
             = (inr g, ((h ++ [Print progress]) ++ client)%list))
      /\ turns_from key server
           (h ++ b ++ match rows' with
                      | [] => []
                      | _ :: _ => [Sleep delay_seconds]
                      end)%list
           rows' gs' blocks'
  | _, _, _ => False
  end.

(** The rows with their results appended: what the loop collects. *)
Definition appended (rows : list Row) (gs : list GeocodeResult) : list Row :=
  map (fun rg => (fst rg ++ fields (snd rg))%list) (combine rows gs).

(** The rows of a table whose last field, the status, passes a test. *)
Definition with_status (test : string -> bool) (table : list Row) : list Row :=
  filter (fun out => test (last out "")) table.

(** A service that finds the first address it is asked and nothing after
    that: its answer depends on the requests already sent. *)
Definition first_only_server (h : list event) (r : request)
    : exc + response :=
  match requests_sent h with
  | [] => inr (Response 200 (inr mock_body))
  | _ :: _ => inr (Response 200 (inr (Py.VDict [("results", Py.VList [])])))
  end.

(** ** Proof automation *)

Ltac unfold_client :=
  cbv [geocode_address try_except bind lift ret raise requests_get
       get len getitem_key getitem_0 not_found status_code json].

Ltac split_case :=
  match goal with
  | |- context [match ?x with _ => _ end] =>
      first [ is_var x; destruct x
            | match x with
              | Py.lookup _ _ => destruct x eqn:?
              | Py.truthy _ => destruct x eqn:?
              | Z.eqb _ _ => destruct x eqn:?
              | Z.ltb _ _ => destruct x eqn:?
              | andb _ _ => destruct x eqn:?
              | isinstance _ _ => destruct x eqn:?
              end ]
  end.

Ltac solve_well_formed :=
  cbn [fst snd well_formed_result];
  first [ left; reflexivity
        | right; repeat split; try reflexivity;
          first [ left; reflexivity
                | right; left; reflexivity
                | right; right; eexists; reflexivity ] ].

Ltac run_client :=
  repeat first
    [ match goal with
      | |- context [isinstance ?e Exception] =>
          change (isinstance e Exception) with true; cbv iota
      end
    | split_case ].

(** * Properties *)

(** ** Stripping *)

Section StripFacts.

Import PyStr.

Lemma lstrip_blank (s : string) : blank s = true -> lstrip_with isspace s = "".
Proof.
  induction s as [|c s IH]; simpl; [reflexivity|].
  intros H. apply andb_true_iff in H as [Hc Hs].
  rewrite Hc. auto.
Qed.

Lemma lstrip_not_blank (s : string) :
  blank s = false ->
  exists c r, lstrip_with isspace s = String c r /\ isspace c = false.
Proof.
  induction s as [|c s IH]; simpl; [discriminate|].
  destruct (isspace c) eqn:Hc; simpl.
  - exact IH.
  - intros _. exists c, s. split; [reflexivity | exact Hc].
Qed.

Lemma rstrip_head_kept (c : ascii) (r : string) :
  isspace c = false -> rstrip_with isspace (String c r) <> "".
Proof.
  intros Hc. simpl. destruct (rstrip_with isspace r); [rewrite Hc|]; discriminate.
Qed.

Lemma strip_blank (s : string) : blank s = true -> strip s = "".
Proof.
  intros H. unfold strip. rewrite (lstrip_blank s H). reflexivity.
Qed.

Lemma strip_not_blank (s : string) : blank s = false -> strip s <> "".
Proof.
  intros H. unfold strip.
  destruct (lstrip_not_blank s H) as (c & r & -> & Hc).
  now apply rstrip_head_kept.
Qed.

Lemma truthy_strip (s : string) : truthy (strip s) = negb (blank s).
Proof.
  destruct (blank s) eqn:Hb; simpl.
  - now rewrite (strip_blank s Hb).
  - pose proof (strip_not_blank s Hb) as Hne.
    destruct (strip s); [congruence | reflexivity].
Qed.

End StripFacts.

(** ** Address Builder *)

Lemma column_truthy (row : Row) (i : nat) :
  PyStr.truthy (column row i) = negb (blank_or_absent row i).
Proof.
  unfold column, blank_or_absent.
  destruct (i <? List.length row) eqn:Hlt.
  - apply Nat.ltb_lt in Hlt.
    destruct (nth_error row i) as [s|] eqn:Hn.
    + rewrite (nth_error_nth _ _ _ Hn). apply truthy_strip.
    + apply nth_error_None in Hn. lia.
  - apply Nat.ltb_ge in Hlt.
    destruct (nth_error row i) as [s|] eqn:Hn; [|reflexivity].
    assert (i < List.length row) by (apply nth_error_Some; congruence). lia.
Qed.

Lemma column_filter (row : Row) (i : nat) :
  filter PyStr.truthy [column row i]
  = map PyStr.strip (match nth_error row i with
                     | Some s => if PyStr.blank s then [] else [s]
                     | None => []
                     end).
Proof.
  simpl. rewrite column_truthy. unfold blank_or_absent, column.
  destruct (nth_error row i) as [s|] eqn:Hn.
  - assert (Hlt : i < List.length row) by (apply nth_error_Some; congruence).
    apply Nat.ltb_lt in Hlt. rewrite Hlt, (nth_error_nth _ _ _ Hn).
    destruct (PyStr.blank s); reflexivity.
  - reflexivity.
Qed.

Lemma parts_non_blank (row : Row) :
  filter PyStr.truthy (map (column row) address_columns)
  = map PyStr.strip (non_blank_fields row).
Proof.
  unfold non_blank_fields, address_columns.
  change (map (column row) [9; 10; 11; 12])
    with ([column row 9] ++ [column row 10] ++ [column row 11] ++ [column row 12])%list.
  rewrite !filter_app, !column_filter. simpl flat_map.
  rewrite !map_app, app_nil_r. reflexivity.
Qed.

Lemma parts_empty_iff (row : Row) :
  filter PyStr.truthy (map (column row) address_columns) = []
  <-> forallb (blank_or_absent row) address_columns = true.
Proof.
  induction address_columns as [|i l IH]; simpl; [tauto|].
  rewrite column_truthy, andb_true_iff, <- IH.
  destruct (blank_or_absent row i); simpl; split; intros H;
    try tauto; try discriminate. destruct H; discriminate.
Qed.

Lemma build_address_unfold (row : Row) :
  build_address row =
  match filter PyStr.truthy (map (column row) address_columns) with
  | [] => None
  | p :: ps => Some (PyStr.join ", " (p :: ps))
  end.
Proof.
  unfold build_address, address_columns, column. cbv zeta. simpl map.
  now destruct (filter PyStr.truthy _).
Qed.

Lemma build_address_refines (row : Row) :
  build_address row = spec_build_address row.
Proof.
  rewrite build_address_unfold. unfold spec_build_address.
  destruct (forallb (blank_or_absent row) address_columns) eqn:Hall.
  - apply parts_empty_iff in Hall. now rewrite Hall.
  - rewrite <- parts_non_blank.
    destruct (filter PyStr.truthy (map (column row) address_columns)) eqn:Hp.
    + apply parts_empty_iff in Hp. congruence.
    + reflexivity.
Qed.

(** The address is never the empty string. *)
Lemma build_address_nonempty (row : Row) : build_address row <> Some "".
Proof.
  rewrite build_address_unfold.
  destruct (filter PyStr.truthy (map (column row) address_columns))
    as [|p ps] eqn:Hp; [discriminate|].
  assert (Hin : In p (filter PyStr.truthy (map (column row) address_columns)))
    by (rewrite Hp; now left).
  apply filter_In in Hin as [_ Ht].
  destruct p as [|c p]; [discriminate|].
  unfold PyStr.join. simpl. destruct ps; discriminate.
Qed.

(** C2: the Address Builder returns [None] exactly when the fields at
    positions 9, 10, 11 and 12 are all blank (white space only, or empty) or
    absent because the row is too short; in every other case it returns the
    trimmed non-blank fields among them joined by a comma and a space, in
    the order street 1, street 2, city, zip. *)
Theorem build_address_spec (row : Row) :
  (build_address row = None <->
   forall i, In i address_columns ->
     match nth_error row i with
     | None => True
     | Some s => PyStr.blank s = true
     end)
  /\ build_address row =
     if forallb (blank_or_absent row) address_columns then None
     else Some (PyStr.join ", " (map PyStr.strip (non_blank_fields row))).
Proof.
  split; [|exact (build_address_refines row)].
  rewrite build_address_refines. unfold spec_build_address.
  destruct (forallb (blank_or_absent row) address_columns) eqn:Hall.
  - split; [intros _ | reflexivity].
    rewrite forallb_forall in Hall. intros i Hi. specialize (Hall i Hi).
    unfold blank_or_absent in Hall. now destruct (nth_error row i).
  - split; [discriminate|]. intros H. exfalso.
    assert (forallb (blank_or_absent row) address_columns = true); [|congruence].
    apply forallb_forall. intros i Hi. specialize (H i Hi).
    unfold blank_or_absent. now destruct (nth_error row i).
Qed.

(** ** Geocoding Client *)

Lemma isinstance_Exception (e : exc) : isinstance e Exception = true.
Proof. reflexivity. Qed.

Section GeocodingClient.

Variable SUBSCRIPTION_KEY : string.
Variable server : list event -> request -> exc + response.

Local Abbreviation geocode := (geocode_address SUBSCRIPTION_KEY server).
Local Abbreviation request_for := (geocode_request SUBSCRIPTION_KEY).

Lemma geocode_address_shape (c : ascii) (q : string) (h : list event) :
  snd (geocode (Some (String c q)) h) = (h ++ [Get (request_for (String c q))])%list
  /\ match fst (geocode (Some (String c q)) h) with
     | inr g => well_formed_result g
     | inl _ => False
     end.
Proof.
  unfold_client. fold (request_for (String c q)).
  destruct (server h (request_for (String c q))) as [e | [code body]].
  - run_client; (split; [reflexivity | solve_well_formed]).
  - run_client; (split; [reflexivity | solve_well_formed]).
Qed.



(** C6: for the absent address the Geocoding Client returns the empty
    coordinates and confidence with the status No Address at once: the
    events are left as they were, so no request is sent, whatever the
    service would have answered. *)
Theorem geocode_absent_address (h : list event) :
  geocode None h = (inr ("", "", "", "No Address"), h)
  /\ requests_sent (snd (geocode None h)) = requests_sent h.
Proof. split; reflexivity. Qed.

(** C9: the empty string is treated as the absent address: the result is
    the same No Address tuple and no request is sent. *)
Theorem geocode_empty_address (h : list event) :
  geocode (Some "") h = (inr ("", "", "", "No Address"), h)
  /\ geocode (Some "") h = geocode None h
  /\ requests_sent (snd (geocode (Some "") h)) = requests_sent h.
Proof. repeat split; reflexivity. Qed.

(** C4: a response whose status code is not 200 gives empty coordinates
    and confidence and a status fixed by the code alone: 401 gives Invalid
    API Key, 403 Forbidden, 429 Rate Limit, any other code HTTP followed by
    the code; a request that times out gives Timeout. *)
Theorem geocode_error_statuses (query : string) (h : list event) :
  PyStr.truthy query = true ->
  (forall code body,
      server h (request_for query) = inr (Response code body) ->
      code <> 200%Z ->
      geocode (Some query) h
      = (inr ("", "", "", http_error_status code),
         (h ++ [Get (request_for query)])%list))
  /\ (forall e,
         server h (request_for query) = inl e ->
         isinstance e Timeout = true ->
         geocode (Some query) h
         = (inr ("", "", "", "Error: Timeout"),
            (h ++ [Get (request_for query)])%list))
  /\ http_error_status 401 = "Error: Invalid API Key"
  /\ http_error_status 403 = "Error: Forbidden"
  /\ http_error_status 429 = "Error: Rate Limit"
  /\ (forall code, code <> 401%Z -> code <> 403%Z -> code <> 429%Z ->
        http_error_status code = "Error: HTTP " ++ PyStr.of_int code).
Proof.
  intros Hq. destruct query as [|c q]; [discriminate|].
  repeat split.
  - intros code body Hs Hcode. unfold_client.
    fold (request_for (String c q)). rewrite Hs. unfold http_error_status.
    destruct (Z.eqb_spec code 200); [contradiction|].
    run_client; reflexivity.
  - intros e Hs He. unfold_client.
    fold (request_for (String c q)). rewrite Hs, He. reflexivity.
  - intros code H1 H2 H3. unfold http_error_status.
    destruct (Z.eqb_spec code 401); [contradiction|].
    destruct (Z.eqb_spec code 403); [contradiction|].
    destruct (Z.eqb_spec code 429); [contradiction|reflexivity].
Qed.


(** What the client makes of a 200 response whose first result has a
    position with a latitude and a longitude: a success when both are
    truthy, Not Found when one of them is falsy (zero, empty, null). *)
Lemma geocode_first_result (query : string) (h : list event)
    (items first pos : list (string * Py.value)) (more : list Py.value)
    (lat lon : Py.value) :
  PyStr.truthy query = true ->
  server h (request_for query) = inr (Response 200 (inr (Py.VDict items))) ->
  Py.lookup "results" items = Some (Py.VList (Py.VDict first :: more)) ->
  Py.lookup "position" first = Some (Py.VDict pos) ->
  Py.lookup "lat" pos = Some lat ->
  Py.lookup "lon" pos = Some lon ->
  geocode (Some query) h
  = (inr (if Py.truthy lat && Py.truthy lon then
            (Py.str lat, Py.str lon,
             Py.str (match Py.lookup "score" first with
                     | Some score => score
                     | None => Py.VStr ""
                     end),
             "Success")
          else ("", "", "", "Not Found")),
     (h ++ [Get (request_for query)])%list).
Proof.
  intros Hq Hs Hres Hpos Hlat Hlon.
  destruct query as [|c q]; [discriminate|].
  unfold_client. fold (request_for (String c q)).
  rewrite Hs. cbv iota beta. change (Z.eqb 200 200) with true. cbv iota.
  rewrite Hres. cbn [Py.truthy]. cbv iota beta.
  change (Z.ltb 0 (Z.of_nat (List.length (Py.VDict first :: more)))) with true.
  cbv iota beta. rewrite Hpos, Hlat, Hlon.
  now destruct (Py.truthy lat && Py.truthy lon).
Qed.

End GeocodingClient.

(** The example response of the specification: one result at latitude
    40.0 and longitude -75.0 with score 0.9. *)
Lemma geocode_mock_response :
  geocode_address "key" (constant_server (inr (Response 200 (inr mock_body))))
    (Some "1 Main St") []
  = (inr ("40.0", "-75.0", "0.9", "Success"),
     [Get (geocode_request "key" "1 Main St")]).
Proof. vm_compute. reflexivity. Qed.

(** C3, at a response the claim covers but the code rejects: the first
    result has a position with latitude 0.0 and longitude -75.0, and the
    client answers Not Found with empty coordinates, because the test on
    the latitude and the longitude is a truth test and 0.0 is falsy. *)
Theorem geocode_zero_latitude :
  Py.lookup "lat" equator_position = Some (Py.VFloat 0)
  /\ Py.lookup "lon" equator_position = Some (Py.VFloat (-75))
  /\ geocode_address "key"
       (constant_server (inr (Response 200 (inr equator_body))))
       (Some "Mitad del Mundo") []
     = (inr ("", "", "", "Not Found"),
        [Get (geocode_request "key" "Mitad del Mundo")]).
Proof. repeat split; vm_compute; reflexivity. Qed.

(** ** Pipeline Driver *)

Lemma of_str_empty : PyFloat.of_str "" = None.
Proof. vm_compute. reflexivity. Qed.

Lemma Forall_turn_event_not_sleep (evs : list event) :
  Forall turn_event evs -> sleeps evs = [].
Proof.
  induction 1 as [|ev evs Hev _ IH]; [reflexivity|].
  unfold sleeps in *. simpl. rewrite IH. now destruct ev.
Qed.

Lemma Forall_turn_event_not_written (evs : list event) :
  Forall turn_event evs -> written evs = [].
Proof.
  induction 1 as [|ev evs Hev _ IH]; [reflexivity|].
  simpl. rewrite IH. now destruct ev.
Qed.

Lemma count_rows_cons (st : loop_state) (row : Row) (rows : list Row)
    (g : GeocodeResult) (gs : list GeocodeResult) :
  count_rows st (row :: rows) (g :: gs) = count_rows (count_row st row g) rows gs.
Proof. reflexivity. Qed.

Lemma count_rows_results (rows : list Row) :
  forall (gs : list GeocodeResult) (st : loop_state),
    List.length gs = List.length rows ->
    results (count_rows st rows gs)
    = (results st ++ map (fun rg => fst rg ++ fields (snd rg)) (combine rows gs))%list.
Proof.
  induction rows as [|row rows IH]; intros [|g gs] st Hlen; try discriminate.
  - cbn. now rewrite app_nil_r.
  - rewrite count_rows_cons, IH by (cbn in Hlen; lia).
    cbn [count_row results combine map fst snd]. now rewrite <- app_assoc.
Qed.

Lemma count_rows_counters (rows : list Row) :
  forall (gs : list GeocodeResult) (st : loop_state),
    List.length gs = List.length rows ->
    success_count (count_rows st rows gs) = (success_count st + count is_success gs)%Z
    /\ error_count (count_rows st rows gs)
       = (error_count st + count (fun g => negb (is_success g)) gs)%Z
    /\ total_confidence (count_rows st rows gs)
       = fold_left (fun total g => if is_success g
                                   then add_confidence total (confidence_of g)
                                   else total) gs (total_confidence st).
Proof.
  unfold count.
  induction rows as [|row rows IH]; intros [|g gs] st Hlen; try discriminate.
  - cbn. repeat split; lia.
  - rewrite count_rows_cons.
    destruct (IH gs (count_row st row g)) as (Hs & He & Ht);
      [cbn in Hlen; lia|].
    rewrite Hs, He, Ht.
    cbn [count_row success_count error_count total_confidence filter fold_left].
    destruct (is_success g); cbn [negb List.length]; repeat split; lia.
Qed.

Lemma count_split (p : GeocodeResult -> bool) (gs : list GeocodeResult) :
  (count p gs + count (fun g => negb (p g)) gs)%Z = Z.of_nat (List.length gs).
Proof.
  unfold count. induction gs as [|g gs IH]; [reflexivity|].
  cbn [filter]. destruct (p g); cbn [negb List.length]; lia.
Qed.

Lemma count_le (p q : GeocodeResult -> bool) (gs : list GeocodeResult) :
  (forall g, p g = true -> q g = true) -> (count p gs <= count q gs)%Z.
Proof.
  intros Hpq. unfold count. induction gs as [|g gs IH]; [reflexivity|].
  cbn [filter]. destruct (p g) eqn:Hp.
  - rewrite (Hpq g Hp). cbn [List.length]. lia.
  - destruct (q g); cbn [List.length]; lia.
Qed.

Lemma written_app (a b : list event) :
  written (a ++ b) = (written a ++ written b)%list.
Proof.
  induction a as [|ev a IH]; [reflexivity|].
  destruct ev; cbn; now rewrite IH.
Qed.

Lemma sleeps_app (a b : list event) :
  sleeps (a ++ b) = (sleeps a ++ sleeps b)%list.
Proof. apply filter_app. Qed.

Lemma sleeps_join_blocks (blocks : list (list event)) :
  Forall (fun b => Forall turn_event b /\ b <> []) blocks ->
  sleeps (join_blocks [Sleep delay_seconds] blocks)
  = List.repeat (Sleep delay_seconds) (List.length blocks - 1).
Proof.
  induction 1 as [|b blocks [Hb _] Hrest IH]; [reflexivity|].
  destruct blocks as [|b' blocks].
  - cbn [join_blocks]. now apply Forall_turn_event_not_sleep.
  - change (join_blocks [Sleep delay_seconds] (b :: b' :: blocks))
      with (b ++ [Sleep delay_seconds]
              ++ join_blocks [Sleep delay_seconds] (b' :: blocks))%list.
    rewrite !sleeps_app, IH, (Forall_turn_event_not_sleep b Hb).
    simpl. now rewrite Nat.sub_0_r.
Qed.

Lemma written_join_blocks (blocks : list (list event)) :
  Forall (fun b => Forall turn_event b /\ b <> []) blocks ->
  written (join_blocks [Sleep delay_seconds] blocks) = [].
Proof.
  induction 1 as [|b blocks [Hb _] Hrest IH]; [reflexivity|].
  destruct blocks as [|b' blocks].
  - cbn [join_blocks]. now apply Forall_turn_event_not_written.
  - change (join_blocks [Sleep delay_seconds] (b :: b' :: blocks))
      with (b ++ [Sleep delay_seconds]
              ++ join_blocks [Sleep delay_seconds] (b' :: blocks))%list.
    rewrite !written_app, IH, (Forall_turn_event_not_written b Hb). reflexivity.
Qed.

Lemma last_fields (row : Row) (g : GeocodeResult) :
  last (row ++ fields g)%list "" = status_of g.
Proof.
  destruct g as [[[lat lon] confidence] status]. cbn [fields status_of snd].
  change [lat; lon; confidence; status]
    with ([lat; lon; confidence] ++ [status])%list.
  rewrite app_assoc. apply last_last.
Qed.

Lemma with_status_appended (test : string -> bool) (rows : list Row) :
  forall gs : list GeocodeResult,
    List.length gs = List.length rows ->
    List.length (with_status test (appended rows gs))
    = List.length (filter (fun g => test (status_of g)) gs).
Proof.
  unfold with_status, appended.
  induction rows as [|row rows IH]; intros [|g gs] Hlen; try discriminate;
    [reflexivity|].
  cbn [combine map fst snd filter]. rewrite last_fields.
  specialize (IH gs ltac:(cbn in Hlen; lia)).
  destruct (test (status_of g)); cbn [List.length]; now rewrite IH.
Qed.

Section PipelineDriver.

Variable SUBSCRIPTION_KEY : string.
Variable server : list event -> request -> exc + response.

Local Abbreviation geocode := (geocode_address SUBSCRIPTION_KEY server).
Local Abbreviation body := (loop_body SUBSCRIPTION_KEY server).
Local Abbreviation loop := (main_loop SUBSCRIPTION_KEY server).
Local Abbreviation geocoded_here := (geocoded SUBSCRIPTION_KEY server).

Lemma geocode_address_total (address : option string) (h : list event) :
  exists g evs,
    geocode address h = (inr g, (h ++ evs)%list)
    /\ Forall turn_event evs /\ well_formed_result g.
Proof.
  destruct address as [[|c q]|].
  - exists ("", "", "", "No Address"), []. rewrite app_nil_r.
    repeat split; [constructor | solve_well_formed].
  - destruct (geocode_address_shape SUBSCRIPTION_KEY server c q h) as [Hh Hg].
    destruct (geocode (Some (String c q)) h) as [[e|g] h'] eqn:Hrun;
      [contradiction|].
    simpl in Hh. subst h'. exists g, [Get (geocode_request SUBSCRIPTION_KEY (String c q))].
    repeat split; [|exact Hg]. repeat constructor.
  - exists ("", "", "", "No Address"), []. rewrite app_nil_r.
    repeat split; [constructor | solve_well_formed].
Qed.

Lemma update_counters_run (st : loop_state) (lat lon confidence status : string)
    (h : list event) :
  update_counters st confidence status h
  = (inr (LoopState (results st)
            (success_count (count_row st [] (lat, lon, confidence, status)))
            (error_count (count_row st [] (lat, lon, confidence, status)))
            (total_confidence (count_row st [] (lat, lon, confidence, status)))),
     h).
Proof.
  unfold update_counters, count_row, is_success, status_of, confidence_of.
  cbn [fst snd success_count error_count total_confidence].
  destruct (String.eqb status "Success"); [|reflexivity].
  unfold add_confidence, float_of_str.
  destruct confidence as [|c s].
  - rewrite of_str_empty. reflexivity.
  - cbv [PyStr.truthy try_except bind lift ret].
    now destruct (PyFloat.of_str (String c s)).
Qed.

Lemma loop_body_run (total_rows i : Z) (row : Row) (st : loop_state)
    (h : list event) :
  total_rows <> 0%Z ->
  exists g evs,
    geocoded_here row g /\ Forall turn_event evs /\ evs <> []
    /\ body total_rows i row st h
       = (inr (count_row st row g),
          (h ++ evs ++ (if Z.ltb i total_rows then [Sleep delay_seconds] else []))%list)
    /\ turn_of g evs.
Proof.
  intros Htotal. unfold loop_body, int_truediv.
  destruct (Z.eqb_spec total_rows 0) as [|_]; [contradiction|].
  cbv [bind lift print_noend print emit ret].
  match goal with
  | |- context [geocode _ (h ++ [Print ?line])%list] => set (progress := Print line)
  end.
  destruct (geocode_address_total (build_address row) (h ++ [progress]))
    as ([[[lat lon] confidence] status] & evs & Hrun & Hevs & _).
  exists (lat, lon, confidence, status),
         ([progress] ++ evs ++ [Print (" " ++ status ++ PyStr.newline)])%list.
  split; [now exists (h ++ [progress])%list, ((h ++ [progress]) ++ evs)%list|].
  split.
  { apply Forall_app. split; [repeat constructor|].
    apply Forall_app. split; [exact Hevs | repeat constructor]. }
  split; [discriminate|].
  split; [|subst progress; now eexists _, evs].
  rewrite Hrun. rewrite (update_counters_run st lat lon confidence status).
  cbn [results success_count error_count total_confidence].
  destruct (Z.ltb i total_rows);
    unfold count_row; cbn [results success_count error_count total_confidence fields];
    rewrite <- !app_assoc; reflexivity.
Qed.

Lemma main_loop_run (total_rows : Z) (rows : list Row) :
  forall (i : Z) (st : loop_state) (h : list event),
    total_rows = (i - 1 + Z.of_nat (List.length rows))%Z -> (1 <= i)%Z ->
    exists gs blocks,
      Forall2 geocoded_here rows gs
      /\ List.length blocks = List.length rows
      /\ Forall (fun b => Forall turn_event b /\ b <> []) blocks
      /\ loop total_rows i rows st h
         = (inr (count_rows st rows gs),
            (h ++ join_blocks [Sleep delay_seconds] blocks)%list)
      /\ Forall2 turn_of gs blocks.
Proof.
  induction rows as [|row rest IH]; intros i st h Htotal Hi.
  - exists [], []. rewrite app_nil_r. repeat split; constructor.
  - cbn [main_loop]. unfold bind.
    destruct (loop_body_run total_rows i row st h)
      as (g & evs & Hg & Hevs & Hne & Hrun & Hturn).
    { cbn [List.length] in Htotal. lia. }
    rewrite Hrun.
    destruct (IH (i + 1)%Z (count_row st row g)
                (h ++ evs ++ (if Z.ltb i total_rows then [Sleep delay_seconds] else []))%list)
      as (gs & blocks & Hgs & Hlen & Hblocks & Hloop & Hturns).
    { cbn [List.length] in Htotal. lia. }
    { lia. }
    exists (g :: gs), (evs :: blocks).
    split; [now constructor|]. split; [cbn [List.length]; now rewrite Hlen|].
    split; [constructor; [now split | exact Hblocks]|].
    split; [|now constructor].
    rewrite Hloop. unfold count_rows. cbn [combine fold_left fst snd].
    f_equal. destruct rest as [|row' rest'].
    + destruct blocks; [|discriminate].
      cbn [List.length] in Htotal.
      replace (Z.ltb i total_rows) with false by (symmetry; apply Z.ltb_ge; lia).
      cbn [join_blocks]. now rewrite !app_nil_r.
    + destruct blocks as [|b blocks]; [discriminate|].
      cbn [List.length] in Htotal.
      replace (Z.ltb i total_rows) with true by (symmetry; apply Z.ltb_lt; lia).
      cbn [join_blocks]. now rewrite <- !app_assoc.
Qed.

Lemma loop_body_answer (total_rows i : Z) (row : Row) (st : loop_state)
    (h : list event) :
  total_rows <> 0%Z ->
  exists g progress client,
    geocode (build_address row) (h ++ [Print progress])%list
    = (inr g, ((h ++ [Print progress]) ++ client)%list)
    /\ body total_rows i row st h
       = (inr (count_row st row g),
          (h ++ (Print progress :: client
                   ++ [Print (" " ++ status_of g ++ PyStr.newline)])
             ++ (if Z.ltb i total_rows then [Sleep delay_seconds] else []))%list).
Proof.
  intros Htotal. unfold loop_body, int_truediv.
  destruct (Z.eqb_spec total_rows 0) as [|_]; [contradiction|].
  cbv [bind lift print_noend print emit ret].
  match goal with
  | |- context [geocode _ (h ++ [Print ?line])%list] => set (progress := line)
  end.
  destruct (geocode_address_total (build_address row) (h ++ [Print progress]))
    as ([[[lat lon] confidence] status] & client & Hrun & _ & _).
  exists (lat, lon, confidence, status), progress, client.
  split; [exact Hrun|].
  rewrite Hrun. rewrite (update_counters_run st lat lon confidence status).
  cbn [results success_count error_count total_confidence status_of snd].
  destruct (Z.ltb i total_rows);
    unfold count_row; cbn [results success_count error_count total_confidence fields];
    repeat (rewrite <- app_assoc; cbn [app]); reflexivity.
Qed.

Lemma main_loop_answers (total_rows : Z) (rows : list Row) :
  forall (i : Z) (st : loop_state) (h : list event),
    total_rows = (i - 1 + Z.of_nat (List.length rows))%Z -> (1 <= i)%Z ->
    exists gs blocks,
      turns_from SUBSCRIPTION_KEY server h rows gs blocks
      /\ loop total_rows i rows st h
         = (inr (count_rows st rows gs),
            (h ++ join_blocks [Sleep delay_seconds] blocks)%list).
Proof.
  induction rows as [|row rest IH]; intros i st h Htotal Hi.
  - exists [], []. rewrite app_nil_r. split; [exact I | reflexivity].
  - cbn [main_loop]. unfold bind.
    destruct (loop_body_answer total_rows i row st h)
      as (g & progress & client & Hanswer & Hrun).
    { cbn [List.length] in Htotal. lia. }
    rewrite Hrun.
    set (b := (Print progress :: client
                 ++ [Print (" " ++ status_of g ++ PyStr.newline)])%list) in *.
    assert (Hpause : (if Z.ltb i total_rows then [Sleep delay_seconds] else [])
                     = match rest with
                       | [] => []
                       | _ :: _ => [Sleep delay_seconds]
                       end).
    { cbn [List.length] in Htotal. destruct rest as [|row' rest'].
      - replace (Z.ltb i total_rows) with false
          by (symmetry; apply Z.ltb_ge; cbn [List.length] in Htotal; lia).
        reflexivity.
      - replace (Z.ltb i total_rows) with true
          by (symmetry; apply Z.ltb_lt; cbn [List.length] in Htotal; lia).
        reflexivity. }
    rewrite Hpause.
    destruct (IH (i + 1)%Z (count_row st row g)
                (h ++ b ++ match rest with
                           | [] => []
                           | _ :: _ => [Sleep delay_seconds]
                           end)%list)
      as (gs & blocks & Hturns & Hloop).
    { cbn [List.length] in Htotal. lia. }
    { lia. }
    exists (g :: gs), (b :: blocks). split.
    + cbn [turns_from]. split; [|exact Hturns].
      exists progress, client. split; [reflexivity | exact Hanswer].
    + rewrite Hloop. rewrite count_rows_cons. f_equal.
      destruct rest as [|row' rest'].
      * destruct gs, blocks; cbn [turns_from] in Hturns; try contradiction.
        cbn [join_blocks]. now rewrite !app_nil_r.
      * destruct gs as [|g' gs], blocks as [|b' blocks];
          cbn [turns_from] in Hturns; try contradiction.
        cbn [join_blocks]. now rewrite <- !app_assoc.
Qed.

Lemma turns_from_geocoded (rows : list Row) :
  forall (h : list event) (gs : list GeocodeResult) (blocks : list (list event)),
    turns_from SUBSCRIPTION_KEY server h rows gs blocks ->
    Forall2 geocoded_here rows gs /\ Forall2 turn_of gs blocks.
Proof.
  induction rows as [|row rows IH]; intros h [|g gs] [|b blocks] Hturns;
    cbn [turns_from] in Hturns; try contradiction.
  - split; constructor.
  - destruct Hturns as [(progress & client & Hb & Hanswer) Hrest].
    destruct (IH _ _ _ Hrest) as [Hgs Hblocks].
    split; constructor; try assumption.
    + now exists (h ++ [Print progress])%list, ((h ++ [Print progress]) ++ client)%list.
    + exists progress, client. split; [exact Hb|].
      destruct (geocode_address_total (build_address row) (h ++ [Print progress]))
        as (g0 & evs & Hrun & Hevs & _).
      rewrite Hrun in Hanswer. injection Hanswer as _ Heq.
      apply app_inv_head in Heq. now subst evs.
Qed.

(** What the counters of a run over [rows] are, in terms of the results
    [gs] of its turns and of the rows it collects. *)
Lemma counters_of_run (rows : list Row) (gs : list GeocodeResult) :
  List.length gs = List.length rows ->
  let st := count_rows initial_state rows gs in
  results st = appended rows gs
  /\ success_count st = count is_success gs
  /\ error_count st = count (fun g => negb (is_success g)) gs
  /\ total_confidence st
     = fold_left (fun total g => if is_success g
                                 then add_confidence total (confidence_of g)
                                 else total) gs (NInt 0)
  /\ success_count st
     = Z.of_nat (List.length
                   (with_status (fun s => String.eqb s "Success") (results st)))
  /\ error_count st
     = Z.of_nat (List.length
                   (with_status (fun s => negb (String.eqb s "Success"))
                      (results st)))
  /\ (Z.of_nat (List.length
                  (with_status (fun s => String.eqb s "No Address"
                                         || String.eqb s "Not Found")
                     (results st)))
      <= error_count st)%Z.
Proof.
  intros Hlen st.
  destruct (count_rows_counters rows gs initial_state Hlen) as (Hs & He & Ht).
  fold st in Hs, He, Ht.
  cbn [initial_state success_count error_count total_confidence] in Hs, He, Ht.
  assert (Hres : results st = appended rows gs).
  { unfold st, appended. now rewrite count_rows_results. }
  rewrite Hres, !with_status_appended by exact Hlen.
  rewrite Hs, He, Ht, !Z.add_0_l. unfold count, is_success.
  repeat split.
  apply (count_le (fun g => String.eqb (status_of g) "No Address"
                            || String.eqb (status_of g) "Not Found")
                  (fun g => negb (String.eqb (status_of g) "Success"))).
  intros g Hg.
  apply orb_true_iff in Hg as [Hg|Hg]; apply String.eqb_eq in Hg;
    rewrite Hg; reflexivity.
Qed.

Lemma print_average_run (st : loop_state) (h : list event) :
  exists h',
    print_average st h = (inr tt, h')
    /\ ((success_count st <= 0)%Z -> h' = h)
    /\ ((0 < success_count st)%Z ->
        exists avg,
          number_truediv (total_confidence st) (success_count st) = inr avg
          /\ h' = (h ++ [Print (("Average confidence: "
                                 ++ PyFloat.format_1f avg ++ "%")
                                ++ PyStr.newline)])%list).
Proof.
  unfold print_average.
  destruct (Z.ltb_spec 0 (success_count st)) as [Hpos|Hle].
  - assert (Hdiv : exists avg,
               number_truediv (total_confidence st) (success_count st) = inr avg).
    { unfold number_truediv, int_truediv.
      destruct (Z.eqb_spec (success_count st) 0) as [Hz|_]; [lia|].
      destruct (total_confidence st); eauto. }
    destruct Hdiv as [avg Havg].
    cbv [bind lift print emit ret]. rewrite Havg.
    eexists. split; [reflexivity|]. split; [lia|].
    intros _. exists avg. split; reflexivity.
  - exists h. split; [reflexivity|]. split; [reflexivity | lia].
Qed.

(** C7: over a run the success counter counts exactly the rows whose
    status is the string Success and the error counter all the others,
    the statuses being those the client returned in the turns of this run,
    printed in the status lines and collected in the last field of the
    output rows; the total adds the confidence of the successful rows that
    parses as a number, a confidence that does not parse leaving the total
    as it was and raising nothing; and the average is computed, by a
    division by the success counter, only when that counter is positive,
    so that the division never fails. *)
Theorem counters_and_average (rows : list Row) (h : list event) :
  (exists st gs blocks,
      loop (Z.of_nat (List.length rows)) 1 rows initial_state h
      = (inr st, (h ++ join_blocks [Sleep delay_seconds] blocks)%list)
      /\ turns_from SUBSCRIPTION_KEY server h rows gs blocks
      /\ Forall2 geocoded_here rows gs
      /\ results st = appended rows gs
      /\ success_count st = count is_success gs
      /\ error_count st = count (fun g => negb (is_success g)) gs
      /\ total_confidence st
         = fold_left (fun total g => if is_success g
                                     then add_confidence total (confidence_of g)
                                     else total) gs (NInt 0)
      /\ success_count st
         = Z.of_nat (List.length
                       (with_status (fun s => String.eqb s "Success")
                          (results st)))
      /\ error_count st
         = Z.of_nat (List.length
                       (with_status (fun s => negb (String.eqb s "Success"))
                          (results st))))
  /\ (forall st confidence h0,
         PyFloat.of_str confidence = None ->
         update_counters st confidence "Success" h0
         = (inr (LoopState (results st) (success_count st + 1) (error_count st)
                   (total_confidence st)), h0))
  /\ (forall st h0,
         exists h1,
           print_average st h0 = (inr tt, h1)
           /\ ((success_count st <= 0)%Z -> h1 = h0)
           /\ ((0 < success_count st)%Z ->
               exists avg,
                 number_truediv (total_confidence st) (success_count st) = inr avg
                 /\ h1 = (h0 ++ [Print (("Average confidence: "
                                         ++ PyFloat.format_1f avg ++ "%")
                                        ++ PyStr.newline)])%list)).
Proof.
  split; [|split].
  - destruct (main_loop_answers (Z.of_nat (List.length rows)) rows 1
                initial_state h)
      as (gs & blocks & Hturns & Hrun); [lia | lia |].
    destruct (turns_from_geocoded rows h gs blocks Hturns) as [Hgs _].
    destruct (counters_of_run rows gs) as (Hres & Hs & He & Ht & Hst & Het & _).
    { symmetry. exact (Forall2_length Hgs). }
    exists (count_rows initial_state rows gs), gs, blocks.
    split; [exact Hrun|]. split; [exact Hturns|]. split; [exact Hgs|].
    split; [exact Hres|]. split; [exact Hs|]. split; [exact He|].
    split; [exact Ht|]. split; [exact Hst | exact Het].
  - intros st confidence h0 Hparse.
    rewrite (update_counters_run st "" "" confidence "Success").
    unfold count_row, is_success, status_of, confidence_of, add_confidence.
    cbn [fst snd success_count error_count total_confidence String.eqb].
    change ("Success" =? "Success")%string with true. cbv iota.
    now rewrite Hparse.
  - intros st h0. apply print_average_run.
Qed.

(** C10: after a run over N rows the success counter and the error counter
    add up to N: each row is counted once, in one of the two.  The error
    counter counts the output rows of this run whose status is not Success,
    so that the rows the run gives the status No Address or Not Found are
    all among those it counts. *)
Theorem every_row_counted (rows : list Row) (h : list event) :
  exists st gs blocks,
    loop (Z.of_nat (List.length rows)) 1 rows initial_state h
    = (inr st, (h ++ join_blocks [Sleep delay_seconds] blocks)%list)
    /\ turns_from SUBSCRIPTION_KEY server h rows gs blocks
    /\ Forall2 geocoded_here rows gs
    /\ results st = appended rows gs
    /\ (success_count st + error_count st)%Z = Z.of_nat (List.length rows)
    /\ error_count st = count (fun g => negb (is_success g)) gs
    /\ (count (fun g => String.eqb (status_of g) "No Address"
                        || String.eqb (status_of g) "Not Found") gs
        <= error_count st)%Z
    /\ error_count st
       = Z.of_nat (List.length
                     (with_status (fun s => negb (String.eqb s "Success"))
                        (results st)))
    /\ (Z.of_nat (List.length
                    (with_status (fun s => String.eqb s "No Address"
                                           || String.eqb s "Not Found")
                       (results st)))
        <= error_count st)%Z.
Proof.
  destruct (main_loop_answers (Z.of_nat (List.length rows)) rows 1
              initial_state h)
    as (gs & blocks & Hturns & Hrun); [lia | lia |].
  destruct (turns_from_geocoded rows h gs blocks Hturns) as [Hgs _].
  pose proof (Forall2_length Hgs) as Hlen. symmetry in Hlen.
  destruct (counters_of_run rows gs Hlen)
    as (Hres & Hs & He & _ & _ & Het & Hnf).
  exists (count_rows initial_state rows gs), gs, blocks.
  split; [exact Hrun|]. split; [exact Hturns|]. split; [exact Hgs|].
  split; [exact Hres|].
  split; [rewrite Hs, He, count_split; now f_equal|].
  split; [exact He|].
  split; [|split; [exact Het | exact Hnf]].
  rewrite He. apply count_le. intros g Hg. unfold is_success.
  apply orb_true_iff in Hg as [Hg|Hg]; apply String.eqb_eq in Hg;
    rewrite Hg; reflexivity.
Qed.

Variable argv : list string.
Variable typed : string.
Variable clock : string.
Variable read_csv : string -> exc + list Row.

Local Abbreviation run := (main SUBSCRIPTION_KEY server argv typed clock read_csv).

Lemma print_average_events (st : loop_state) (h : list event) :
  exists evs, print_average st h = (inr tt, (h ++ evs)%list) /\ Forall turn_event evs.
Proof.
  destruct (print_average_run st h) as (h' & Hrun & Hle & Hpos).
  destruct (Z.ltb_spec 0 (success_count st)) as [Hlt|Hge].
  - destruct (Hpos Hlt) as (avg & _ & ->). eexists. split; [exact Hrun|].
    repeat constructor.
  - rewrite (Hle Hge) in Hrun. exists []. rewrite app_nil_r.
    split; [exact Hrun | constructor].
Qed.

Lemma process_run (input_file output_file : string) (headers : Row)
    (rows : list Row) (h : list event) :
  read_csv input_file = inr (headers :: rows) ->
  exists gs blocks pre mid post,
    process SUBSCRIPTION_KEY server read_csv input_file output_file h
    = (inr tt,
       (h ++ pre ++ join_blocks [Sleep delay_seconds] blocks ++ mid
          ++ [WriteCsv output_file
                ((headers ++ result_columns)%list
                   :: results (count_rows initial_state rows gs))]
          ++ post)%list)
    /\ Forall2 geocoded_here rows gs
    /\ List.length blocks = List.length rows
    /\ Forall (fun b => Forall turn_event b /\ b <> []) blocks
    /\ Forall turn_event pre /\ Forall turn_event mid /\ Forall turn_event post
    /\ Forall2 turn_of gs blocks.
Proof.
  intros Hread. unfold process. cbv [bind lift]. rewrite Hread.
  cbv [print emit ret].
  match goal with
  | |- context [loop _ _ _ _ (h ++ [?found])%list] => set (ev_found := found)
  end.
  destruct (main_loop_run (Z.of_nat (List.length rows)) rows 1 initial_state
              (h ++ [ev_found])%list)
    as (gs & blocks & Hgs & Hlen & Hblocks & Hrun & Hturns); [lia | lia |].
  rewrite Hrun.
  match goal with
  | |- context [print_average ?st ?h0] =>
      destruct (print_average_events st h0) as (avg_evs & Havg & Havg_evs);
      rewrite Havg
  end.
  exists gs, blocks, [ev_found].
  eexists [_], (_ :: _ :: _ :: _ :: _ :: _ :: avg_evs ++ [_; _])%list.
  split.
  { f_equal. repeat (rewrite <- app_assoc; cbn [app]). reflexivity. }
  split; [exact Hgs|]. split; [exact Hlen|]. split; [exact Hblocks|].
  split; [subst ev_found; repeat constructor|]. split; [repeat constructor|].
  split; [|exact Hturns].
  repeat (apply Forall_cons; [exact I|]). apply Forall_app.
  split; [exact Havg_evs | repeat constructor].
Qed.

Lemma main_run (headers : Row) (rows : list Row) (h : list event) :
  PyStr.truthy (input_path argv typed) = true ->
  read_csv (input_path argv typed) = inr (headers :: rows) ->
  exists gs blocks pre mid post,
    run h
    = (inr tt,
       (h ++ pre ++ join_blocks [Sleep delay_seconds] blocks ++ mid
          ++ [WriteCsv (output_path clock)
                ((headers ++ result_columns)%list
                   :: results (count_rows initial_state rows gs))]
          ++ post)%list)
    /\ Forall2 geocoded_here rows gs
    /\ List.length blocks = List.length rows
    /\ Forall (fun b => Forall turn_event b /\ b <> []) blocks
    /\ sleeps pre = [] /\ written pre = []
    /\ Forall turn_event mid /\ Forall turn_event post
    /\ Forall2 turn_of gs blocks.
Proof.
  intros Hpath Hread. unfold main, input_path in *.
  destruct (1 <? List.length argv).
  - cbv [bind ret print emit]. rewrite Hpath. cbn [negb].
    unfold try_except.
    match goal with
    | |- context [process _ _ _ ?i ?o ?h0] =>
        destruct (process_run i o headers rows h0 Hread)
          as (gs & blocks & pre & mid & post & Hrun & Hgs & Hlen & Hb & Hpre
              & Hmid & Hpost & Hturns);
        rewrite Hrun
    end.
    exists gs, blocks. eexists (_ :: _ :: _ :: pre), mid, post.
    split.
    { f_equal. repeat (rewrite <- app_assoc; cbn [app]). reflexivity. }
    split; [exact Hgs|]. split; [exact Hlen|]. split; [exact Hb|].
    split; [exact (Forall_turn_event_not_sleep pre Hpre)|].
    split; [exact (Forall_turn_event_not_written pre Hpre)|].
    split; [exact Hmid|]. split; [exact Hpost | exact Hturns].
  - cbv [bind ret print emit input]. rewrite Hpath. cbn [negb].
    unfold try_except.
    match goal with
    | |- context [process _ _ _ ?i ?o ?h0] =>
        destruct (process_run i o headers rows h0 Hread)
          as (gs & blocks & pre & mid & post & Hrun & Hgs & Hlen & Hb & Hpre
              & Hmid & Hpost & Hturns);
        rewrite Hrun
    end.
    exists gs, blocks. eexists (_ :: _ :: _ :: _ :: _ :: _ :: pre), mid, post.
    split.
    { f_equal. repeat (rewrite <- app_assoc; cbn [app]). reflexivity. }
    split; [exact Hgs|]. split; [exact Hlen|]. split; [exact Hb|].
    split; [exact (Forall_turn_event_not_sleep pre Hpre)|].
    split; [exact (Forall_turn_event_not_written pre Hpre)|].
    split; [exact Hmid|]. split; [exact Hpost | exact Hturns].
Qed.

Lemma appended_rows (rows : list Row) (gs : list GeocodeResult) :
  Forall2 geocoded_here rows gs ->
  Forall2 (fun row out =>
             exists lat lon confidence status,
               geocoded_here row (lat, lon, confidence, status)
               /\ out = (row ++ [lat; lon; confidence; status])%list)
    rows (map (fun rg => (fst rg ++ fields (snd rg))%list) (combine rows gs)).
Proof.
  induction 1 as [|row g rows gs Hg _ IH]; [constructor|].
  cbn [combine map fst snd]. constructor; [|exact IH].
  destruct g as [[[lat lon] confidence] status].
  now exists lat, lon, confidence, status.
Qed.

(** C1: when [main] has read a table of N data rows it writes one table:
    the header with the four result columns appended, then N rows in the
    order of the input, the k-th being the k-th input row with exactly
    the four fields latitude, longitude, confidence and status of its
    geocoding appended in that order; whatever the service answers, no
    row is dropped. *)
Theorem output_rows_match_input (headers : Row) (rows : list Row) :
  PyStr.truthy (input_path argv typed) = true ->
  read_csv (input_path argv typed) = inr (headers :: rows) ->
  exists outs,
    written (snd (run []))
    = [(output_path clock,
        (headers ++ ["Latitude"; "Longitude"; "Confidence Score";
                     "Geocoding Status"])%list :: outs)]
    /\ List.length outs = List.length rows
    /\ Forall2 (fun row out =>
                  exists lat lon confidence status,
                    geocoded_here row (lat, lon, confidence, status)
                    /\ out = (row ++ [lat; lon; confidence; status])%list)
         rows outs.
Proof.
  intros Hpath Hread.
  destruct (main_run headers rows [] Hpath Hread)
    as (gs & blocks & pre & mid & post & Hrun & Hgs & Hlen & Hb & _ & Hpre
        & Hmid & Hpost & _).
  rewrite Hrun. cbn [snd app].
  rewrite !written_app, Hpre, (written_join_blocks blocks Hb),
    (Forall_turn_event_not_written mid Hmid).
  cbn [written app]. rewrite (Forall_turn_event_not_written post Hpost).
  rewrite count_rows_results by (symmetry; exact (Forall2_length Hgs)).
  cbn [initial_state results app].
  eexists. split; [reflexivity|].
  split; [|now apply appended_rows].
  rewrite length_map, length_combine, <- (Forall2_length Hgs). apply Nat.min_id.
Qed.

(** C8: in a run over N rows, N at least 1, the pause of 200 milliseconds
    comes after each row but the last: the events of the run are those of
    the N turns, the k-th being the turn of the k-th row, with one pause
    between two consecutive turns and no other pause, so the program pauses
    exactly N - 1 times. *)
Theorem pause_between_rows (headers : Row) (rows : list Row) :
  PyStr.truthy (input_path argv typed) = true ->
  read_csv (input_path argv typed) = inr (headers :: rows) ->
  1 <= List.length rows ->
  exists gs pre blocks post,
    snd (run []) = (pre ++ join_blocks [Sleep delay_seconds] blocks ++ post)%list
    /\ Forall2 geocoded_here rows gs
    /\ Forall2 turn_of gs blocks
    /\ List.length blocks = List.length rows
    /\ Forall (fun b => Forall turn_event b /\ b <> []) blocks
    /\ sleeps pre = [] /\ sleeps post = []
    /\ sleeps (snd (run []))
       = List.repeat (Sleep delay_seconds) (List.length rows - 1)
    /\ DELAY_MS = 200%Z
    /\ delay_seconds = PrimFloat.div 200 1000.
Proof.
  intros Hpath Hread _.
  destruct (main_run headers rows [] Hpath Hread)
    as (gs & blocks & pre & mid & post & Hrun & Hgs & Hlen & Hb & Hpre & _
        & Hmid & Hpost & Hturns).
  rewrite Hrun. cbn [snd app].
  exists gs, pre, blocks. eexists.
  split; [reflexivity|]. split; [exact Hgs|]. split; [exact Hturns|].
  split; [exact Hlen|]. split; [exact Hb|].
  split; [exact Hpre|].
  assert (Hrest : forall table,
             sleeps (mid ++ WriteCsv (output_path clock) table :: post) = []).
  { intros table.
    rewrite sleeps_app, (Forall_turn_event_not_sleep mid Hmid).
    unfold sleeps at 1. cbn [filter is_sleep app].
    exact (Forall_turn_event_not_sleep post Hpost). }
  split; [apply Hrest|].
  split; [|split; reflexivity].
  rewrite sleeps_app, Hpre, sleeps_app, (sleeps_join_blocks blocks Hb), Hrest, Hlen.
  cbn [app]. apply app_nil_r.
Qed.

End PipelineDriver.

(** ** The properties at work on a small run *)

Example build_address_full :
  build_address ["1"; "Ada"; ""; ""; ""; ""; ""; ""; "";
                 " 1 Main St "; "  "; "Springfield"; "12345"]
  = Some "1 Main St, Springfield, 12345".
Proof. reflexivity. Qed.

Example build_address_short_row : build_address ["2"; "Bob"] = None.
Proof. reflexivity. Qed.

Example float_repr_examples :
  map PyFloat.repr [40; -75; score_0_9; 0; delay_seconds]%float
  = ["40.0"; "-75.0"; "0.9"; "0.0"; "0.2"].
Proof. vm_compute. reflexivity. Qed.

Example float_of_str_examples :
  map PyFloat.of_str ["0.9"; " 40 "; "None"; ""; "1e3"]
  = [Some score_0_9; Some 40%float; None; None; Some 1000%float].
Proof. vm_compute. reflexivity. Qed.

(** The table the demo run writes. *)
Example demo_run_output :
  written (snd (main "key" demo_server demo_argv "" demo_clock demo_read []))
  = [("geocoded_20260101_120000.csv",
      [ (demo_headers ++ ["Latitude"; "Longitude"; "Confidence Score";
                          "Geocoding Status"])%list;
        ["1"; "Ada"; ""; ""; ""; ""; ""; ""; ""; " 1 Main St "; "  ";
         "Springfield"; "12345"; "40.0"; "-75.0"; "0.9"; "Success"];
        ["2"; "Bob"; ""; ""; ""; "No Address"];
        ["3"; "Cy"; ""; ""; ""; ""; ""; ""; ""; ""; ""; "Nowhere"; "";
         ""; ""; ""; "Error: Rate Limit"] ])].
Proof. vm_compute. reflexivity. Qed.

(** A connection failure whose message is longer than 50 characters. *)
Example transport_failure_is_cut :
  geocode_address "key"
    (constant_server
       (inl (Raise RequestException
               "HTTPSConnectionPool(host='atlas.microsoft.com', port=443): Max retries exceeded")))
    (Some "1 Main St") []
  = (inr ("", "", "",
          "Error: HTTPSConnectionPool(host='atlas.microsoft.com', po"),
     [Get (geocode_request "key" "1 Main St")]).
Proof. vm_compute. reflexivity. Qed.

(** A body that is not a JSON object makes the navigation raise; the
    client turns the exception into a status. *)
Example malformed_body_is_reported :
  geocode_address "key"
    (constant_server (inr (Response 200 (inr (Py.VList [])))))
    (Some "1 Main St") []
  = (inr ("", "", "", "Error: 'list' object has no attribute 'get'"),
     [Get (geocode_request "key" "1 Main St")]).
Proof. vm_compute. reflexivity. Qed.

(** A result without a usable score: the confidence is the string None,
    the row counts as a success and the total stays the integer 0. *)
Example unparsable_confidence_is_ignored :
  fst (main_loop "key"
         (constant_server
            (inr (Response 200
                    (inr (Py.VDict
                            [("results",
                              Py.VList
                                [Py.VDict
                                   [("position",
                                     Py.VDict [("lat", Py.VFloat 40);
                                               ("lon", Py.VFloat (-75))]);
                                    ("score", Py.VNone)]])])))))
         1 1 [List.nth 0 demo_rows []] initial_state [])
  = inr (LoopState
           [["1"; "Ada"; ""; ""; ""; ""; ""; ""; ""; " 1 Main St "; "  ";
             "Springfield"; "12345"; "40.0"; "-75.0"; "None"; "Success"]]
           1 0 (NInt 0)).
Proof. vm_compute. reflexivity. Qed.

(** The same address asked twice of a service that finds it the first
    time only: the row is a success, then Not Found, and the counters
    follow the statuses of the run, one success and one error. *)
Example counters_follow_the_run :
  fst (main_loop "key" first_only_server 2 1
         [List.nth 0 demo_rows []; List.nth 0 demo_rows []] initial_state [])
  = inr (LoopState
           [["1"; "Ada"; ""; ""; ""; ""; ""; ""; ""; " 1 Main St "; "  ";
             "Springfield"; "12345"; "40.0"; "-75.0"; "0.9"; "Success"];
            ["1"; "Ada"; ""; ""; ""; ""; ""; ""; ""; " 1 Main St "; "  ";
             "Springfield"; "12345"; ""; ""; ""; "Not Found"]]
           1 1 (NFloat score_0_9)).
Proof. vm_compute. reflexivity. Qed.

(** C1 on the demo run. *)
Lemma output_rows_match_input_witness :
  PyStr.truthy (input_path demo_argv "") = true
  /\ demo_read (input_path demo_argv "") = inr (demo_headers :: demo_rows)
  /\ exists outs,
       written (snd (main "key" demo_server demo_argv "" demo_clock demo_read []))
       = [(output_path demo_clock,
           (demo_headers ++ ["Latitude"; "Longitude"; "Confidence Score";
                             "Geocoding Status"])%list :: outs)]
       /\ List.length outs = List.length demo_rows
       /\ Forall2 (fun row out =>
                     exists lat lon confidence status,
                       geocoded "key" demo_server row (lat, lon, confidence, status)
                       /\ out = (row ++ [lat; lon; confidence; status])%list)
            demo_rows outs.
Proof.
  split; [reflexivity|]. split; [reflexivity|].
  apply (output_rows_match_input "key" demo_server demo_argv "" demo_clock
           demo_read demo_headers demo_rows); reflexivity.
Defined.

(** C4 on a request the demo service refuses with a 429. *)
Lemma geocode_error_statuses_witness :
  PyStr.truthy "Nowhere" = true
  /\ geocode_address "key" demo_server (Some "Nowhere") []
     = (inr ("", "", "", "Error: Rate Limit"),
        [Get (geocode_request "key" "Nowhere")]).
Proof.
  split; [reflexivity|].
  apply (proj1 (geocode_error_statuses "key" demo_server "Nowhere" [] eq_refl)
           429%Z (inl (Raise Exception ""))); [reflexivity | lia].
Defined.

(** C8 on the demo run: three rows, two pauses. *)
Lemma pause_between_rows_witness :
  PyStr.truthy (input_path demo_argv "") = true
  /\ demo_read (input_path demo_argv "") = inr (demo_headers :: demo_rows)
  /\ 1 <= List.length demo_rows
  /\ sleeps (snd (main "key" demo_server demo_argv "" demo_clock demo_read []))
     = [Sleep delay_seconds; Sleep delay_seconds].
Proof.
  split; [reflexivity|]. split; [reflexivity|]. split; [simpl; lia|].
  destruct (pause_between_rows "key" demo_server demo_argv "" demo_clock
              demo_read demo_headers demo_rows)
    as (gs & pre & blocks & post & _ & _ & _ & _ & _ & _ & _ & Hsleeps & _);
    [reflexivity | reflexivity | simpl; lia | exact Hsleeps].
Defined.

(** * Further properties *)

Lemma requests_sent_app (a b : list event) :
  requests_sent (a ++ b) = (requests_sent a ++ requests_sent b)%list.
Proof.
  induction a as [|ev a IH]; [reflexivity|].
  destruct ev; cbn; now rewrite IH.
Qed.

Lemma prompts_app (a b : list event) :
  prompts (a ++ b) = (prompts a ++ prompts b)%list.
Proof.
  induction a as [|ev a IH]; [reflexivity|].
  destruct ev; cbn; now rewrite IH.
Qed.

(** ** Geocoding Client *)

Section ClientFurther.

Variable SUBSCRIPTION_KEY : string.
Variable server : list event -> request -> exc + response.

Local Abbreviation geocode := (geocode_address SUBSCRIPTION_KEY server).
Local Abbreviation request_for := (geocode_request SUBSCRIPTION_KEY).

Lemma geocode_events (address : option string) (h : list event) :
  snd (geocode address h) = (h ++ request_events SUBSCRIPTION_KEY address)%list
  /\ exists g, fst (geocode address h) = inr g.
Proof.
  destruct address as [[|c q]|].
  - cbn. rewrite app_nil_r. eauto.
  - destruct (geocode_address_shape SUBSCRIPTION_KEY server c q h) as [Hh Hg].
    split; [exact Hh|].
    destruct (fst (geocode (Some (String c q)) h)); [contradiction | eauto].
  - cbn. rewrite app_nil_r. eauto.
Qed.

(** X1: a 200 response whose JSON object has no results entry, or a falsy
    one (null, an empty list), gives Not Found with empty coordinates and
    confidence. *)
Theorem geocode_no_results (query : string) (h : list event)
    (items : list (string * Py.value)) :
  PyStr.truthy query = true ->
  server h (request_for query) = inr (Response 200 (inr (Py.VDict items))) ->
  Py.truthy (lookup_or "results" Py.VNone items) = false ->
  geocode (Some query) h
  = (inr ("", "", "", "Not Found"), (h ++ [Get (request_for query)])%list).
Proof.
  intros Hq Hs Hres. destruct query as [|c q]; [discriminate|].
  unfold_client. fold (request_for (String c q)). rewrite Hs.
  cbv iota beta. change (Z.eqb 200 200) with true. cbv iota.
  unfold lookup_or in Hres. rewrite Hres. reflexivity.
Qed.

(** X2: a 200 response whose first result is an object whose position (an
    empty object when the entry is missing) lacks the latitude or the
    longitude gives Not Found. *)
Theorem geocode_missing_coordinates (query : string) (h : list event)
    (items first pos : list (string * Py.value)) (more : list Py.value) :
  PyStr.truthy query = true ->
  server h (request_for query) = inr (Response 200 (inr (Py.VDict items))) ->
  Py.lookup "results" items = Some (Py.VList (Py.VDict first :: more)) ->
  lookup_or "position" (Py.VDict []) first = Py.VDict pos ->
  Py.lookup "lat" pos = None \/ Py.lookup "lon" pos = None ->
  geocode (Some query) h
  = (inr ("", "", "", "Not Found"), (h ++ [Get (request_for query)])%list).
Proof.
  intros Hq Hs Hres Hpos Hmissing. destruct query as [|c q]; [discriminate|].
  unfold_client. fold (request_for (String c q)). rewrite Hs.
  cbv iota beta. change (Z.eqb 200 200) with true. cbv iota.
  rewrite Hres. cbn [Py.truthy]. cbv iota beta.
  change (Z.ltb 0 (Z.of_nat (List.length (Py.VDict first :: more)))) with true.
  cbv iota beta. unfold lookup_or in Hpos. rewrite Hpos.
  destruct Hmissing as [H|H]; rewrite H.
  - reflexivity.
  - cbn [Py.truthy PyStr.truthy]. now rewrite andb_false_r.
Qed.

(** X3: for an address that is not empty the client sends exactly one
    request, whatever the service answers or raises: a GET to the Azure
    Maps URL with the API version 1.0, the key, the address as the query
    and the limit 1, in this order, and a timeout of 10 seconds. *)
Theorem geocode_one_request (query : string) (h : list event) :
  PyStr.truthy query = true ->
  requests_sent (snd (geocode (Some query) h))
  = (requests_sent h
       ++ [Request "https://atlas.microsoft.com/search/address/json"
             [("api-version", "1.0"); ("subscription-key", SUBSCRIPTION_KEY);
              ("query", query); ("limit", "1")] 10])%list.
Proof.
  intros Hq. destruct query as [|c q]; [discriminate|].
  destruct (geocode_events (Some (String c q)) h) as [Hh _].
  rewrite Hh, requests_sent_app. reflexivity.
Qed.


(** X5: of a 200 response the client reads the first result only: the
    other results and the other entries of the body do not change what it
    returns. *)
Theorem geocode_reads_first_result (query : string) (h : list event)
    (items : list (string * Py.value)) (first : Py.value)
    (more : list Py.value)
    (server' : list event -> request -> exc + response) :
  PyStr.truthy query = true ->
  server h (request_for query) = inr (Response 200 (inr (Py.VDict items))) ->
  Py.lookup "results" items = Some (Py.VList (first :: more)) ->
  server' h (request_for query)
  = inr (Response 200 (inr (Py.VDict [("results", Py.VList [first])]))) ->
  geocode (Some query) h
  = geocode_address SUBSCRIPTION_KEY server' (Some query) h.
Proof.
  intros Hq Hs Hres Hs'. destruct query as [|c q]; [discriminate|].
  unfold_client. fold (request_for (String c q)). rewrite Hs, Hs'.
  cbv iota beta. change (Z.eqb 200 200) with true. cbv iota.
  rewrite Hres.
  change (Py.lookup "results" [("results", Py.VList [first])])
    with (Some (Py.VList [first])).
  reflexivity.
Qed.

(** X6: when the body of a 200 response does not decode, the exception
    that decoding raises becomes the status: Error followed by the first 50
    characters of its message. *)
Theorem geocode_undecodable_body (query : string) (h : list event) (e : exc) :
  PyStr.truthy query = true ->
  server h (request_for query) = inr (Response 200 (inl e)) ->
  isinstance e Timeout = false ->
  geocode (Some query) h
  = (inr ("", "", "", "Error: " ++ PyStr.take 50 (exc_str e)),
     (h ++ [Get (request_for query)])%list).
Proof.
  intros Hq Hs He. destruct query as [|c q]; [discriminate|].
  unfold_client. fold (request_for (String c q)). rewrite Hs.
  cbv iota beta. change (Z.eqb 200 200) with true. cbv iota beta.
  rewrite He. now destruct (isinstance e RequestException).
Qed.

(** X7: a 200 response whose body decodes to something that is not an
    object (a list, a string, a number, null) is reported as an error, not
    as Not Found, and with empty coordinates and confidence. *)
Theorem geocode_body_not_object (query : string) (h : list event)
    (data : Py.value) :
  PyStr.truthy query = true ->
  server h (request_for query) = inr (Response 200 (inr data)) ->
  (forall items, data <> Py.VDict items) ->
  geocode (Some query) h
  = (inr ("", "", "",
          "Error: " ++ PyStr.take 50 ("'" ++ Py.type_name data
                                      ++ "' object has no attribute 'get'")),
     (h ++ [Get (request_for query)])%list).
Proof.
  intros Hq Hs Hdata. destruct query as [|c q]; [discriminate|].
  unfold_client. fold (request_for (String c q)). rewrite Hs.
  cbv iota beta. change (Z.eqb 200 200) with true. cbv iota beta.
  destruct data; try reflexivity. now elim (Hdata items).
Qed.

End ClientFurther.

(** ** Address Builder *)

Section AddressFurther.

Import PyStr.

Lemma rstrip_idem (s : string) :
  rstrip_with isspace (rstrip_with isspace s) = rstrip_with isspace s.
Proof.
  induction s as [|c s IH]; [reflexivity|].
  cbn [rstrip_with]. destruct (rstrip_with isspace s) as [|a r] eqn:Hr.
  - destruct (isspace c) eqn:Hc; [reflexivity|].
    cbn [rstrip_with]. now rewrite Hc.
  - change (rstrip_with isspace (String c (String a r)))
      with (match rstrip_with isspace (String a r) with
            | EmptyString => if isspace c then EmptyString else String c EmptyString
            | String x y => String c (String x y)
            end).
    now rewrite IH.
Qed.

Lemma rstrip_app (a b : string) :
  rstrip_with isspace b <> "" ->
  rstrip_with isspace (a ++ b) = a ++ rstrip_with isspace b.
Proof.
  intros Hb. induction a as [|c a IH]; [reflexivity|].
  cbn [append rstrip_with]. rewrite IH.
  destruct (a ++ rstrip_with isspace b) eqn:Hab; [|reflexivity].
  destruct a; [contradiction | discriminate].
Qed.

Lemma strip_clean (s : string) : truthy (strip s) = true -> clean (strip s).
Proof.
  intros Ht. split; [|apply rstrip_idem].
  unfold strip in *. destruct (blank s) eqn:Hb.
  - rewrite (lstrip_blank s Hb) in Ht. discriminate.
  - destruct (lstrip_not_blank s Hb) as (c & r & Hl & Hc). rewrite Hl.
    cbn [rstrip_with].
    destruct (rstrip_with isspace r); [rewrite Hc|]; eauto.
Qed.

Lemma clean_lstrip (p : string) (rest : string) :
  clean p -> lstrip_with isspace (p ++ rest) = p ++ rest.
Proof.
  intros [(c & r & -> & Hc) _]. cbn. now rewrite Hc.
Qed.

Lemma clean_nonempty (p : string) : clean p -> p <> "".
Proof. intros [(c & r & -> & _) _]. discriminate. Qed.

Lemma join_clean (p : string) (ps : list string) :
  Forall clean (p :: ps) ->
  rstrip_with isspace (join ", " (p :: ps)) = join ", " (p :: ps)
  /\ join ", " (p :: ps) <> "".
Proof.
  revert p. induction ps as [|q qs IH]; intros p Hall.
  - inversion Hall as [|? ? Hp _]; subst. split; [apply Hp|].
    now apply clean_nonempty.
  - inversion Hall as [|? ? Hp Hrest]; subst.
    destruct (IH q Hrest) as [Hr Hne].
    change (join ", " (p :: q :: qs)) with (p ++ ", " ++ join ", " (q :: qs)).
    assert (Hsep : rstrip_with isspace (", " ++ join ", " (q :: qs))
                   = ", " ++ join ", " (q :: qs)).
    { rewrite rstrip_app by (rewrite Hr; exact Hne). now rewrite Hr. }
    split.
    + rewrite rstrip_app by (rewrite Hsep; discriminate). now rewrite Hsep.
    + destruct Hp as [(c & r & -> & _) _]. discriminate.
Qed.

Lemma parts_clean (row : Row) :
  Forall clean (filter truthy (map (column row) address_columns)).
Proof.
  apply Forall_forall. intros p Hin.
  apply filter_In in Hin as [Hin Ht].
  apply in_map_iff in Hin as (i & <- & _).
  unfold column in *. destruct (i <? List.length row); [|discriminate].
  now apply strip_clean.
Qed.

End AddressFurther.

(** X8: an address that the Address Builder returns is not empty and has
    no white space at its beginning or its end: stripping it changes
    nothing. *)
Theorem build_address_trimmed (row : Row) (address : string) :
  build_address row = Some address ->
  address <> "" /\ PyStr.strip address = address.
Proof.
  rewrite build_address_unfold.
  pose proof (parts_clean row) as Hclean.
  destruct (filter PyStr.truthy (map (column row) address_columns))
    as [|p ps]; [discriminate|].
  intros H.
  assert (Ha : address = PyStr.join ", " (p :: ps)) by congruence.
  clear H. subst address.
  destruct (join_clean p ps Hclean) as [Hr Hne]. split; [exact Hne|].
  unfold PyStr.strip.
  assert (Hl : PyStr.lstrip_with PyStr.isspace (PyStr.join ", " (p :: ps))
               = PyStr.join ", " (p :: ps)).
  { inversion Hclean as [|? ? Hp _]; subst. destruct ps as [|q qs].
    - unfold PyStr.join. cbn [String.concat].
      destruct Hp as [(c & r & -> & Hc) _]. cbn. now rewrite Hc.
    - exact (clean_lstrip p _ Hp). }
  rewrite Hl. exact Hr.
Qed.

(** X9: the Address Builder reads the columns 9 to 12 and nothing else:
    two rows with the same fields (or the same lack of a field) at these
    four positions have the same address. *)
Theorem build_address_reads_four_columns (row row' : Row) :
  (forall i, In i [9; 10; 11; 12] -> nth_error row i = nth_error row' i) ->
  build_address row = build_address row'.
Proof.
  intros H. rewrite !build_address_refines.
  unfold spec_build_address, non_blank_fields, blank_or_absent, address_columns.
  cbn [forallb flat_map].
  rewrite (H 9), (H 10), (H 11), (H 12) by (cbn; tauto).
  reflexivity.
Qed.

(** ** Pipeline Driver *)

Section DriverFurther.

Variable SUBSCRIPTION_KEY : string.
Variable server : list event -> request -> exc + response.
Variable argv : list string.
Variable typed : string.
Variable clock : string.
Variable read_csv : string -> exc + list Row.

Local Abbreviation geocode := (geocode_address SUBSCRIPTION_KEY server).
Local Abbreviation body := (loop_body SUBSCRIPTION_KEY server).
Local Abbreviation loop := (main_loop SUBSCRIPTION_KEY server).
Local Abbreviation run := (main SUBSCRIPTION_KEY server argv typed clock read_csv).
Local Abbreviation path := (input_path argv typed).
Local Abbreviation out := (output_path clock).

Lemma main_unfold (h : list event) :
  run h
  = if PyStr.truthy path then
      try_except (process SUBSCRIPTION_KEY server read_csv path out)
        (fun e =>
           if isinstance e FileNotFoundError then
             Some (print ("Error: File '" ++ path ++ "' not found"))
           else if isinstance e Exception then
             Some (print ("Error: " ++ exc_str e))
           else None)
        (h ++ prelude argv ++ banner path out)%list
    else (inr tt,
          (h ++ prelude argv
             ++ [Print ("Error: No file specified" ++ PyStr.newline)])%list).
Proof.
  unfold main, input_path, prelude, banner, output_path.
  destruct (1 <? List.length argv).
  - cbv [bind ret print emit].
    destruct (PyStr.truthy (nth 1 argv "")); cbn [negb app];
      repeat (rewrite <- app_assoc; cbn [app]); reflexivity.
  - cbv [bind ret print emit input].
    destruct (PyStr.truthy (PyStr.strip_dquote (PyStr.strip typed)));
      cbn [negb app]; repeat (rewrite <- app_assoc; cbn [app]); reflexivity.
Qed.

Lemma process_read_fails (input_file output_file : string) (h : list event) :
  (forall e, read_csv input_file = inl e ->
     process SUBSCRIPTION_KEY server read_csv input_file output_file h = (inl e, h))
  /\ (read_csv input_file = inr [] ->
      process SUBSCRIPTION_KEY server read_csv input_file output_file h
      = (inl (Raise StopIteration ""), h)).
Proof.
  split; [intros e Hread | intros Hread];
    unfold process; cbv [bind lift raise]; now rewrite Hread.
Qed.

Lemma print_average_eq (st : loop_state) (h : list event) :
  print_average st h = (inr tt, (h ++ average_events st)%list).
Proof.
  unfold print_average, average_events.
  destruct (Z.ltb_spec 0 (success_count st)) as [Hpos|Hle].
  - assert (Hdiv : exists avg,
               number_truediv (total_confidence st) (success_count st) = inr avg).
    { unfold number_truediv, int_truediv.
      destruct (Z.eqb_spec (success_count st) 0) as [Hz|_]; [lia|].
      destruct (total_confidence st); eauto. }
    destruct Hdiv as [avg Havg].
    cbv [bind lift print emit ret]. now rewrite Havg.
  - cbv [ret]. now rewrite app_nil_r.
Qed.

Lemma process_trace (input_file output_file : string) (headers : Row)
    (rows : list Row) (h : list event) :
  read_csv input_file = inr (headers :: rows) ->
  exists gs blocks,
    Forall2 (geocoded SUBSCRIPTION_KEY server) rows gs
    /\ Forall2 turn_of gs blocks
    /\ loop (Z.of_nat (List.length rows)) 1 rows initial_state
         (h ++ [Print (("Found " ++ PyStr.of_int (Z.of_nat (List.length rows))
                        ++ " rows to process" ++ PyStr.newline)
                       ++ PyStr.newline)])%list
       = (inr (count_rows initial_state rows gs),
          ((h ++ [Print (("Found " ++ PyStr.of_int (Z.of_nat (List.length rows))
                          ++ " rows to process" ++ PyStr.newline)
                         ++ PyStr.newline)])
             ++ join_blocks [Sleep delay_seconds] blocks)%list)
    /\ process SUBSCRIPTION_KEY server read_csv input_file output_file h
       = (inr tt,
          (h ++ process_events output_file headers
                  (Z.of_nat (List.length rows))
                  (join_blocks [Sleep delay_seconds] blocks)
                  (count_rows initial_state rows gs))%list).
Proof.
  intros Hread. unfold process. cbv [bind lift]. rewrite Hread.
  cbv [print emit ret].
  match goal with
  | |- context [loop _ _ _ _ ?h0] =>
      destruct (main_loop_run SUBSCRIPTION_KEY server
                  (Z.of_nat (List.length rows)) rows 1 initial_state h0)
        as (gs & blocks & Hgs & _ & _ & Hrun & Hturns); [lia | lia |]
  end.
  exists gs, blocks. split; [exact Hgs|]. split; [exact Hturns|].
  split; [exact Hrun|].
  rewrite Hrun. rewrite print_average_eq. unfold process_events.
  f_equal. repeat (rewrite <- app_assoc; cbn [app]). reflexivity.
Qed.

Lemma request_events_addresses (row : Row) :
  requests_sent (request_events SUBSCRIPTION_KEY (build_address row))
  = map (geocode_request SUBSCRIPTION_KEY) (addresses [row]).
Proof.
  unfold addresses. cbn [flat_map]. rewrite app_nil_r.
  pose proof (build_address_nonempty row) as Hne.
  destruct (build_address row) as [[|c a]|]; [congruence | reflexivity | reflexivity].
Qed.

Lemma loop_body_requests (total_rows i : Z) (row : Row) (st : loop_state)
    (h : list event) :
  total_rows <> 0%Z ->
  requests_sent (snd (body total_rows i row st h))
  = (requests_sent h
       ++ map (geocode_request SUBSCRIPTION_KEY) (addresses [row]))%list.
Proof.
  intros Htotal. rewrite <- request_events_addresses.
  unfold loop_body, int_truediv.
  destruct (Z.eqb_spec total_rows 0) as [|_]; [contradiction|].
  cbv [bind lift print_noend print emit ret].
  match goal with
  | |- context [geocode _ ?h0] =>
      destruct (geocode_events SUBSCRIPTION_KEY server (build_address row) h0)
        as [Hh [g Hg]];
      destruct (geocode (build_address row) h0) as [[e|g'] h'] eqn:Hrun;
      cbn [fst snd] in Hh, Hg; [discriminate|]
  end.
  subst h'. destruct g' as [[[lat lon] confidence] status].
  rewrite (update_counters_run st lat lon confidence status).
  destruct (Z.ltb i total_rows); cbv [emit ret]; cbn [snd];
    rewrite !requests_sent_app; cbn [requests_sent];
    rewrite ?app_nil_r; reflexivity.
Qed.

Lemma addresses_cons (row : Row) (rows : list Row) :
  addresses (row :: rows) = (addresses [row] ++ addresses rows)%list.
Proof. unfold addresses. cbn [flat_map]. now rewrite app_nil_r. Qed.

Lemma main_loop_requests (total_rows : Z) (rows : list Row) :
  forall (i : Z) (st : loop_state) (h : list event),
    total_rows = (i - 1 + Z.of_nat (List.length rows))%Z -> (1 <= i)%Z ->
    requests_sent (snd (loop total_rows i rows st h))
    = (requests_sent h
         ++ map (geocode_request SUBSCRIPTION_KEY) (addresses rows))%list.
Proof.
  induction rows as [|row rest IH]; intros i st h Htotal Hi.
  - cbn. now rewrite app_nil_r.
  - cbn [main_loop]. unfold bind.
    assert (Hne : total_rows <> 0%Z) by (cbn [List.length] in Htotal; lia).
    pose proof (loop_body_requests total_rows i row st h Hne) as Hreq.
    destruct (loop_body_run SUBSCRIPTION_KEY server total_rows i row st h Hne)
      as (g & evs & _ & _ & _ & Hrun & _).
    rewrite Hrun in *. cbn [snd] in Hreq.
    rewrite IH by (cbn [List.length] in Htotal; lia).
    rewrite Hreq, (addresses_cons row rest), map_app, <- app_assoc.
    reflexivity.
Qed.

Lemma turn_event_no_prompt (evs : list event) :
  Forall turn_event evs -> prompts evs = [].
Proof.
  induction 1 as [|ev evs Hev _ IH]; [reflexivity|].
  cbn. rewrite IH. now destruct ev.
Qed.

Lemma turns_are_turn_events (gs : list GeocodeResult)
    (blocks : list (list event)) :
  Forall2 turn_of gs blocks ->
  Forall (fun b => Forall turn_event b /\ b <> []) blocks.
Proof.
  induction 1 as [|g b gs blocks (progress & client & -> & Hclient) _ IH];
    constructor; [|exact IH].
  split; [|discriminate].
  constructor; [exact I|]. apply Forall_app. split; [exact Hclient|].
  repeat constructor.
Qed.

Lemma join_blocks_prompts (blocks : list (list event)) :
  Forall (fun b => Forall turn_event b /\ b <> []) blocks ->
  prompts (join_blocks [Sleep delay_seconds] blocks) = [].
Proof.
  induction 1 as [|b blocks [Hb _] Hrest IH]; [reflexivity|].
  destruct blocks as [|b' blocks].
  - cbn [join_blocks]. now apply turn_event_no_prompt.
  - change (join_blocks [Sleep delay_seconds] (b :: b' :: blocks))
      with (b ++ [Sleep delay_seconds]
              ++ join_blocks [Sleep delay_seconds] (b' :: blocks))%list.
    rewrite !prompts_app, IH, (turn_event_no_prompt b Hb). reflexivity.
Qed.

Lemma average_events_quiet (st : loop_state) :
  Forall turn_event (average_events st).
Proof.
  unfold average_events. destruct (Z.ltb 0 (success_count st)); [|constructor].
  destruct (number_truediv _ _); repeat constructor.
Qed.

(** What the events of the body of the [try] hold besides console
    output: the requests and pauses of the turns, and one table. *)
Lemma process_events_parts (output_file : string) (headers : Row)
    (total_rows : Z) (turns : list event) (st : loop_state) :
  requests_sent (process_events output_file headers total_rows turns st)
  = requests_sent turns
  /\ prompts (process_events output_file headers total_rows turns st)
     = prompts turns
  /\ sleeps (process_events output_file headers total_rows turns st)
     = sleeps turns
  /\ written (process_events output_file headers total_rows turns st)
     = (written turns
          ++ [(output_file, (headers ++ result_columns)%list :: results st)])%list.
Proof.
  pose proof (average_events_quiet st) as Hq.
  unfold process_events.
  rewrite !requests_sent_app, !prompts_app, !sleeps_app, !written_app.
  assert (Hr : requests_sent (average_events st) = []).
  { unfold average_events. destruct (Z.ltb 0 (success_count st)); [|reflexivity].
    now destruct (number_truediv _ _). }
  rewrite Hr, (turn_event_no_prompt _ Hq), (Forall_turn_event_not_sleep _ Hq),
    (Forall_turn_event_not_written _ Hq).
  cbn. rewrite !app_nil_r. repeat split; reflexivity.
Qed.

Lemma prelude_parts :
  requests_sent (prelude argv) = [] /\ sleeps (prelude argv) = []
  /\ written (prelude argv) = []
  /\ prompts (prelude argv)
     = if 1 <? List.length argv then [] else ["Enter CSV file path: "].
Proof. unfold prelude. destruct (1 <? List.length argv); now repeat split. Qed.

Lemma quiet_start (evs : list event) :
  requests_sent evs = [] -> written evs = [] ->
  requests_sent (prelude argv ++ banner path out ++ evs) = []
  /\ written (prelude argv ++ banner path out ++ evs) = [].
Proof.
  intros Hr Hw. destruct prelude_parts as (Hpr & _ & Hpw & _).
  rewrite !requests_sent_app, !written_app, Hpr, Hpw, Hr, Hw. now split.
Qed.

(** X10: when no file is given (the argument, or the line typed once
    stripped, is empty) [main] prints that no file was specified and
    stops: it reads no table, sends no request and writes nothing. *)
Theorem main_no_file_specified :
  PyStr.truthy path = false ->
  run []
  = (inr tt,
     (prelude argv ++ [Print ("Error: No file specified" ++ PyStr.newline)])%list)
  /\ requests_sent (snd (run [])) = []
  /\ written (snd (run [])) = [].
Proof.
  intros Hpath. rewrite main_unfold, Hpath. cbn [app snd].
  destruct prelude_parts as (Hpr & _ & Hpw & _).
  rewrite requests_sent_app, written_app, Hpr, Hpw. now repeat split.
Qed.

(** X11: when the file does not exist [main] prints that the file was
    not found, with its path, and returns: no request is sent and nothing
    is written. *)
Theorem main_missing_file (e : exc) :
  PyStr.truthy path = true ->
  read_csv path = inl e ->
  isinstance e FileNotFoundError = true ->
  run []
  = (inr tt,
     (prelude argv ++ banner path out
        ++ [Print (("Error: File '" ++ path ++ "' not found")
                   ++ PyStr.newline)])%list)
  /\ requests_sent (snd (run [])) = []
  /\ written (snd (run [])) = [].
Proof.
  intros Hpath Hread He. rewrite main_unfold, Hpath. unfold try_except.
  rewrite (proj1 (process_read_fails path out _) e Hread), He.
  cbv [print emit]. cbn [app snd]. rewrite <- app_assoc.
  split; [reflexivity|]. now apply quiet_start.
Qed.

(** X12: when reading the file fails in any other way [main] prints Error
    followed by the whole message of the exception and returns: no request
    is sent and nothing is written. *)
Theorem main_read_error (e : exc) :
  PyStr.truthy path = true ->
  read_csv path = inl e ->
  isinstance e FileNotFoundError = false ->
  run []
  = (inr tt,
     (prelude argv ++ banner path out
        ++ [Print (("Error: " ++ exc_str e) ++ PyStr.newline)])%list)
  /\ requests_sent (snd (run [])) = []
  /\ written (snd (run [])) = [].
Proof.
  intros Hpath Hread He. rewrite main_unfold, Hpath. unfold try_except.
  rewrite (proj1 (process_read_fails path out _) e Hread), He.
  change (isinstance e Exception) with true.
  cbv [print emit]. cbn [app snd]. rewrite <- app_assoc.
  split; [reflexivity|]. now apply quiet_start.
Qed.

(** X13: a file without any record, not even a header, makes [main]
    print Error with an empty message (the exception that ends the
    iteration has none) and return without writing a table. *)
Theorem main_empty_file :
  PyStr.truthy path = true ->
  read_csv path = inr [] ->
  run []
  = (inr tt,
     (prelude argv ++ banner path out
        ++ [Print ("Error: " ++ PyStr.newline)])%list)
  /\ requests_sent (snd (run [])) = []
  /\ written (snd (run [])) = [].
Proof.
  intros Hpath Hread. rewrite main_unfold, Hpath. unfold try_except.
  rewrite (proj2 (process_read_fails path out _) Hread).
  cbv [print emit]. cbn [app snd isinstance exc_type exc_str]. rewrite <- app_assoc.
  split; [reflexivity|]. now apply quiet_start.
Qed.

(** X14: [main] returns normally whatever happens: with every command
    line, console input, file content and service behaviour it ends
    without raising, every failure being printed. *)
Theorem main_returns_normally (h : list event) : fst (run h) = inr tt.
Proof.
  rewrite main_unfold. destruct (PyStr.truthy path); [|reflexivity].
  unfold try_except.
  destruct (process SUBSCRIPTION_KEY server read_csv path out _) as [[e|[]] h'];
    [|reflexivity].
  destruct (isinstance e FileNotFoundError); [reflexivity|].
  change (isinstance e Exception) with true. reflexivity.
Qed.

Lemma main_trace (headers : Row) (rows : list Row) :
  PyStr.truthy path = true ->
  read_csv path = inr (headers :: rows) ->
  exists gs blocks,
    Forall2 (geocoded SUBSCRIPTION_KEY server) rows gs
    /\ Forall2 turn_of gs blocks
    /\ requests_sent (join_blocks [Sleep delay_seconds] blocks)
       = map (geocode_request SUBSCRIPTION_KEY) (addresses rows)
    /\ run []
       = (inr tt,
          (prelude argv ++ banner path out
             ++ process_events out headers (Z.of_nat (List.length rows))
                  (join_blocks [Sleep delay_seconds] blocks)
                  (count_rows initial_state rows gs))%list).
Proof.
  intros Hpath Hread. rewrite main_unfold, Hpath. unfold try_except.
  match goal with
  | |- context [process _ _ _ _ _ ?h0] =>
      destruct (process_trace path out headers rows h0 Hread)
        as (gs & blocks & Hgs & Hturns & Hloop & Hproc)
  end.
  exists gs, blocks. split; [exact Hgs|]. split; [exact Hturns|]. split.
  - match type of Hloop with
    | loop ?n ?i ?rs ?st ?h1 = _ =>
        pose proof (main_loop_requests n rs i st h1) as Hreq
    end.
    rewrite Hloop in Hreq. cbn [snd] in Hreq.
    rewrite requests_sent_app in Hreq.
    apply app_inv_head in Hreq; [exact Hreq | lia | lia].
  - rewrite Hproc. cbn [app]. now rewrite <- app_assoc.
Qed.

Lemma main_failure_trace :
  PyStr.truthy path = true ->
  (forall headers rows, read_csv path <> inr (headers :: rows)) ->
  exists message,
    run [] = (inr tt, (prelude argv ++ banner path out ++ [Print message])%list).
Proof.
  intros Hpath Hread. rewrite main_unfold, Hpath. unfold try_except.
  destruct (read_csv path) as [e | [|headers rows]] eqn:Hr.
  - rewrite (proj1 (process_read_fails path out _) e Hr).
    destruct (isinstance e FileNotFoundError);
      [|change (isinstance e Exception) with true];
      cbv [print emit]; cbn [app]; rewrite <- app_assoc; eauto.
  - rewrite (proj2 (process_read_fails path out _) Hr).
    cbv [print emit]. cbn [app isinstance exc_type]. rewrite <- app_assoc. eauto.
  - now elim (Hread headers rows).
Qed.

(** X15: a run sends one request for each row that has an address, in
    row order, with that address as the query, and none for a row without
    an address; nothing else sends a request. *)
Theorem main_requests_follow_rows (headers : Row) (rows : list Row) :
  PyStr.truthy path = true ->
  read_csv path = inr (headers :: rows) ->
  requests_sent (snd (run []))
  = map (geocode_request SUBSCRIPTION_KEY) (addresses rows).
Proof.
  intros Hpath Hread.
  destruct (main_trace headers rows Hpath Hread)
    as (gs & blocks & _ & _ & Hreq & Hrun).
  rewrite Hrun. cbn [snd].
  destruct prelude_parts as (Hpr & _).
  destruct (process_events_parts out headers (Z.of_nat (List.length rows))
              (join_blocks [Sleep delay_seconds] blocks)
              (count_rows initial_state rows gs)) as (Hpe & _).
  rewrite !requests_sent_app, Hpr, Hpe, Hreq. reflexivity.
Qed.

(** X16: for a table with a header and no data row [main] sends no
    request and never pauses; it writes a table that holds the extended
    header alone and prints a summary with the counts 0 and no average. *)
Theorem main_header_only (headers : Row) :
  PyStr.truthy path = true ->
  read_csv path = inr [headers] ->
  snd (run [])
  = (prelude argv ++ banner path out
       ++ [Print (("Found 0 rows to process" ++ PyStr.newline) ++ PyStr.newline);
           Print ((PyStr.newline ++ "Writing results to " ++ out ++ "...")
                  ++ PyStr.newline);
           WriteCsv out
             [(headers ++ ["Latitude"; "Longitude"; "Confidence Score";
                           "Geocoding Status"])%list];
           Print ((PyStr.newline ++ PyStr.repeat "=" 50) ++ PyStr.newline);
           Print ("GEOCODING COMPLETE!" ++ PyStr.newline);
           Print (PyStr.repeat "=" 50 ++ PyStr.newline);
           Print ("Total rows processed: 0" ++ PyStr.newline);
           Print ("Successfully geocoded: 0" ++ PyStr.newline);
           Print ("Failed: 0" ++ PyStr.newline);
           Print ((PyStr.newline ++ "Output saved to: " ++ out) ++ PyStr.newline);
           Print (PyStr.repeat "=" 50 ++ PyStr.newline)])%list.
Proof.
  intros Hpath Hread.
  destruct (main_trace headers [] Hpath Hread)
    as (gs & blocks & Hgs & Hturns & _ & Hrun).
  inversion Hgs; subst. inversion Hturns; subst.
  rewrite Hrun. reflexivity.
Qed.

(** X17: [main] asks for the path only when the command line gives none:
    with an argument it never reads the console, without one it prompts
    exactly once, whatever happens next. *)
Theorem main_prompts_once :
  prompts (snd (run []))
  = if 1 <? List.length argv then [] else ["Enter CSV file path: "].
Proof.
  destruct prelude_parts as (_ & _ & _ & Hpp).
  destruct (PyStr.truthy path) eqn:Hpath.
  - destruct (read_csv path) as [e | [|headers rows]] eqn:Hread.
    + destruct (main_failure_trace Hpath) as [message Hrun];
        [intros ? ?; rewrite Hread; discriminate|].
      rewrite Hrun. cbn [snd]. rewrite !prompts_app, Hpp. cbn.
      now rewrite app_nil_r.
    + destruct (main_failure_trace Hpath) as [message Hrun];
        [intros ? ?; rewrite Hread; discriminate|].
      rewrite Hrun. cbn [snd]. rewrite !prompts_app, Hpp. cbn.
      now rewrite app_nil_r.
    + destruct (main_trace headers rows Hpath Hread)
        as (gs & blocks & _ & Hturns & _ & Hrun).
      rewrite Hrun. cbn [snd].
      destruct (process_events_parts out headers (Z.of_nat (List.length rows))
                  (join_blocks [Sleep delay_seconds] blocks)
                  (count_rows initial_state rows gs)) as (_ & Hpe & _).
      rewrite !prompts_app, Hpp, Hpe,
        (join_blocks_prompts blocks (turns_are_turn_events gs blocks Hturns)).
      cbn. now rewrite app_nil_r.
  - rewrite main_unfold, Hpath. cbn [snd app].
    rewrite prompts_app, Hpp. cbn. now rewrite app_nil_r.
Qed.

Lemma successes_appended (rows : list Row) :
  forall gs : list GeocodeResult,
    List.length gs = List.length rows ->
    List.length
      (successes (map (fun rg => (fst rg ++ fields (snd rg))%list)
                    (combine rows gs)))
    = List.length (filter is_success gs).
Proof.
  induction rows as [|row rows IH]; intros [|g gs] Hlen; try discriminate;
    [reflexivity|].
  cbn [combine map fst snd successes filter].
  rewrite last_fields. fold (is_success g).
  specialize (IH gs ltac:(cbn in Hlen; lia)). unfold successes in IH.
  destruct (is_success g); cbn [List.length]; now rewrite IH.
Qed.

Lemma summary_lines_printed (output_file : string) (headers : Row)
    (total_rows : Z) (turns : list event) (st : loop_state) :
  let evs := process_events output_file headers total_rows turns st in
  In (Print (("Total rows processed: " ++ PyStr.of_int total_rows)
             ++ PyStr.newline)) evs
  /\ In (Print (("Successfully geocoded: " ++ PyStr.of_int (success_count st))
                ++ PyStr.newline)) evs
  /\ In (Print (("Failed: " ++ PyStr.of_int (error_count st))
                ++ PyStr.newline)) evs.
Proof.
  unfold process_events.
  repeat split; apply in_or_app; right; apply in_or_app; right;
    apply in_or_app; left; cbn [In]; tauto.
Qed.

(** X18: the summary agrees with the table written: the total printed is
    the number of data rows of the table, the number printed as
    successfully geocoded is the number of its rows whose last field is
    Success, and the number printed as failed is the number of the other
    rows. *)
Theorem summary_agrees_with_table (headers : Row) (rows : list Row) :
  PyStr.truthy path = true ->
  read_csv path = inr (headers :: rows) ->
  exists outs,
    written (snd (run []))
    = [(out, (headers ++ result_columns)%list :: outs)]
    /\ In (Print (("Total rows processed: "
                   ++ PyStr.of_int (Z.of_nat (List.length outs)))
                  ++ PyStr.newline)) (snd (run []))
    /\ In (Print (("Successfully geocoded: "
                   ++ PyStr.of_int (Z.of_nat (List.length (successes outs))))
                  ++ PyStr.newline)) (snd (run []))
    /\ In (Print (("Failed: "
                   ++ PyStr.of_int
                        (Z.of_nat (List.length outs
                                   - List.length (successes outs))))
                  ++ PyStr.newline)) (snd (run [])).
Proof.
  intros Hpath Hread.
  destruct (main_trace headers rows Hpath Hread)
    as (gs & blocks & Hgs & Hturns & _ & Hrun).
  pose proof (Forall2_length Hgs) as Hlen. symmetry in Hlen.
  set (st := count_rows initial_state rows gs) in *.
  set (turns := join_blocks [Sleep delay_seconds] blocks) in *.
  destruct (process_events_parts out headers (Z.of_nat (List.length rows))
              turns st) as (_ & _ & _ & Hw).
  destruct (summary_lines_printed out headers (Z.of_nat (List.length rows))
              turns st) as (Htotal & Hsucc & Hfail).
  destruct (count_rows_counters rows gs initial_state Hlen) as (Hs & He & _).
  fold st in Hs, He. cbn [initial_state success_count error_count] in Hs, He.
  assert (Hres : results st
                 = map (fun rg => (fst rg ++ fields (snd rg))%list)
                     (combine rows gs)).
  { unfold st. now rewrite count_rows_results. }
  assert (Houts : List.length (results st) = List.length rows).
  { rewrite Hres, length_map, length_combine, Hlen. apply Nat.min_id. }
  assert (Hsuccs : List.length (successes (results st))
                   = List.length (filter is_success gs)).
  { rewrite Hres. now apply successes_appended. }
  pose proof (count_split is_success gs) as Hsplit. unfold count in *.
  exists (results st). rewrite Hrun. cbn [snd].
  split.
  { destruct prelude_parts as (_ & _ & Hpw & _).
    rewrite !written_app, Hpw, Hw. unfold turns.
    rewrite (written_join_blocks blocks (turns_are_turn_events gs blocks Hturns)).
    reflexivity. }
  unfold Row in *. rewrite Houts, Hsuccs.
  replace (Z.of_nat (List.length (filter is_success gs)))
    with (success_count st) by lia.
  replace (Z.of_nat (List.length rows - List.length (filter is_success gs)))
    with (error_count st).
  2:{ assert (List.length (filter is_success gs) <= List.length gs)
        by apply filter_length_le.
      lia. }
  repeat split; apply in_or_app; right; apply in_or_app; right; assumption.
Qed.

End DriverFurther.

(** ** A row without address *)

(** X19: a row that has no address costs no request: its turn prints the
    progress line with the placeholder No address and the status line,
    the row goes to the output with three empty fields and the status No
    Address, and it is counted as an error, the success counter and the
    total confidence being left as they were. *)
Theorem row_without_address (key : string)
    (server : list event -> request -> exc + response)
    (total_rows i : Z) (row : Row) (st : loop_state) (h : list event) :
  total_rows <> 0%Z ->
  build_address row = None ->
  loop_body key server total_rows i row st h
  = (inr (LoopState (results st ++ [(row ++ [""; ""; ""; "No Address"])%list])%list
            (success_count st) (error_count st + 1) (total_confidence st)),
     (h ++ [Print ("[" ++ PyStr.of_int i ++ "/" ++ PyStr.of_int total_rows
                   ++ "] ("
                   ++ PyFloat.format_1f
                        (PrimFloat.mul (PyFloat.int_truediv i total_rows)
                           (PyFloat.of_int 100))
                   ++ "%) Processing: " ++ "No address" ++ "...");
            Print ((" " ++ "No Address") ++ PyStr.newline)]
        ++ (if Z.ltb i total_rows then [Sleep delay_seconds] else []))%list).
Proof.
  intros Htotal Haddr. unfold loop_body, int_truediv.
  destruct (Z.eqb_spec total_rows 0) as [|_]; [contradiction|].
  rewrite Haddr.
  cbv [bind lift print_noend print emit ret geocode_address update_counters].
  change (String.eqb "No Address" "Success") with false. cbv iota.
  cbn [results success_count error_count total_confidence].
  destruct (Z.ltb i total_rows); cbv [emit ret];
    repeat (rewrite <- app_assoc; cbn [app]); reflexivity.
Qed.

(** ** The path typed at the prompt *)

Section TypedPath.

Import PyStr.

Variable drop : ascii -> bool.

Lemma lstrip_dropped_prefix (pre s : string) :
  forallb drop (list_ascii_of_string pre) = true ->
  lstrip_with drop (pre ++ s) = lstrip_with drop s.
Proof.
  induction pre as [|c pre IH]; [reflexivity|].
  cbn. intros H. apply andb_true_iff in H as [Hc Hpre]. rewrite Hc. auto.
Qed.

Lemma rstrip_dropped (post : string) :
  forallb drop (list_ascii_of_string post) = true ->
  rstrip_with drop post = "".
Proof.
  induction post as [|c post IH]; [reflexivity|].
  cbn. intros H. apply andb_true_iff in H as [Hc Hpost].
  now rewrite (IH Hpost), Hc.
Qed.

Lemma rstrip_dropped_suffix (s post : string) :
  forallb drop (list_ascii_of_string post) = true ->
  rstrip_with drop (s ++ post) = rstrip_with drop s.
Proof.
  intros Hpost. induction s as [|c s IH].
  - cbn. now apply rstrip_dropped.
  - cbn [append rstrip_with]. now rewrite IH.
Qed.

Lemma rstrip_kept_suffix (a b : string) :
  rstrip_with drop b <> "" ->
  rstrip_with drop (a ++ b) = a ++ rstrip_with drop b.
Proof.
  intros Hb. induction a as [|c a IH]; [reflexivity|].
  cbn [append rstrip_with]. rewrite IH.
  destruct (a ++ rstrip_with drop b) eqn:Hab; [|reflexivity].
  destruct a; [contradiction | discriminate].
Qed.

Lemma rstrip_length (s : string) :
  String.length (rstrip_with drop s) <= String.length s.
Proof.
  induction s as [|c s IH]; [reflexivity|].
  cbn [rstrip_with]. destruct (rstrip_with drop s).
  - destruct (drop c); cbn in *; lia.
  - cbn in *. lia.
Qed.

Lemma lstrip_same_or_shorter (s : string) :
  lstrip_with drop s = s
  \/ String.length (lstrip_with drop s) < String.length s.
Proof.
  induction s as [|c s IH]; [now left|].
  cbn [lstrip_with]. destruct (drop c); [|now left].
  right. cbn [String.length]. destruct IH as [->|IH]; lia.
Qed.

Lemma strip_fixed (p : string) :
  rstrip_with drop (lstrip_with drop p) = p ->
  lstrip_with drop p = p /\ rstrip_with drop p = p.
Proof.
  intros H. destruct (lstrip_same_or_shorter p) as [Hl|Hl].
  - now rewrite Hl in H.
  - pose proof (rstrip_length (lstrip_with drop p)) as Hr.
    rewrite H in Hr. lia.
Qed.

Lemma lstrip_fixed_head (c : ascii) (r : string) :
  lstrip_with drop (String c r) = String c r -> drop c = false.
Proof.
  cbn [lstrip_with]. destruct (drop c); [|reflexivity]. intros H.
  destruct (lstrip_same_or_shorter r) as [Hl|Hl];
    apply (f_equal String.length) in H; cbn [String.length] in H;
    [rewrite Hl in H|]; lia.
Qed.

End TypedPath.

Lemma string_app_assoc (a b c : string) : (a ++ b) ++ c = a ++ b ++ c.
Proof. induction a as [|x a IH]; [reflexivity|]. cbn. now rewrite IH. Qed.

Lemma blank_forallb (s : string) :
  PyStr.blank s = forallb PyStr.isspace (list_ascii_of_string s).
Proof. induction s as [|c s IH]; [reflexivity|]. cbn. now rewrite IH. Qed.

(** X20: without a command-line argument the path is the line typed with
    the white space around it removed and then the double quotes around
    what is left: a path typed between double quotes, with white space
    before or after, is read as the path itself (a path that has no
    double quote of its own at either end). *)
Theorem typed_path_unwrapped (argv : list string) (before after p : string) :
  List.length argv <= 1 ->
  PyStr.blank before = true ->
  PyStr.blank after = true ->
  PyStr.strip_dquote p = p ->
  input_path argv
    (before ++ String PyStr.dquote (p ++ String PyStr.dquote after))
  = p.
Proof.
  intros Hargv Hbefore Hafter Hfixed. unfold input_path.
  destruct (strip_fixed _ p Hfixed) as [Hl Hp].
  replace (1 <? List.length argv) with false
    by (symmetry; apply Nat.ltb_ge; exact Hargv).
  rewrite blank_forallb in Hbefore, Hafter.
  assert (Hstrip : PyStr.strip
                     (before ++ String PyStr.dquote (p ++ String PyStr.dquote after))
                   = String PyStr.dquote (p ++ String PyStr.dquote "")).
  { unfold PyStr.strip. rewrite (lstrip_dropped_prefix _ _ _ Hbefore).
    change (PyStr.lstrip_with PyStr.isspace
              (String PyStr.dquote (p ++ String PyStr.dquote after)))
      with (String PyStr.dquote (p ++ String PyStr.dquote after)).
    replace (String PyStr.dquote (p ++ String PyStr.dquote after))
      with ((String PyStr.dquote p ++ String PyStr.dquote "") ++ after)
      by (rewrite string_app_assoc; reflexivity).
    rewrite (rstrip_dropped_suffix _ _ _ Hafter).
    rewrite rstrip_kept_suffix by discriminate. reflexivity. }
  rewrite Hstrip. unfold PyStr.strip_dquote.
  change (PyStr.lstrip_with (Ascii.eqb PyStr.dquote)
            (String PyStr.dquote (p ++ String PyStr.dquote "")))
    with (PyStr.lstrip_with (Ascii.eqb PyStr.dquote) (p ++ String PyStr.dquote "")).
  destruct p as [|c r].
  - reflexivity.
  - cbn [append PyStr.lstrip_with].
    rewrite (lstrip_fixed_head _ c r Hl).
    change (String c (r ++ String PyStr.dquote ""))
      with (String c r ++ String PyStr.dquote "").
    rewrite (rstrip_dropped_suffix (Ascii.eqb PyStr.dquote) (String c r)
               (String PyStr.dquote "")) by reflexivity.
    exact Hp.
Qed.

(** ** The further properties on small runs *)

Lemma geocode_no_results_witness :
  PyStr.truthy "Atlantis" = true
  /\ geocode_address "key"
       (constant_server
          (inr (Response 200 (inr (Py.VDict [("results", Py.VList [])])))))
       (Some "Atlantis") []
     = (inr ("", "", "", "Not Found"), [Get (geocode_request "key" "Atlantis")]).
Proof.
  split; [reflexivity|].
  apply (geocode_no_results "key" _ "Atlantis" [] [("results", Py.VList [])]);
    reflexivity.
Defined.

Lemma geocode_missing_coordinates_witness :
  PyStr.truthy "Atlantis" = true
  /\ geocode_address "key"
       (constant_server
          (inr (Response 200
                  (inr (Py.VDict
                          [("results",
                            Py.VList [Py.VDict [("score", Py.VFloat 1)]])])))))
       (Some "Atlantis") []
     = (inr ("", "", "", "Not Found"), [Get (geocode_request "key" "Atlantis")]).
Proof.
  split; [reflexivity|].
  apply (geocode_missing_coordinates "key" _ "Atlantis" []
           [("results", Py.VList [Py.VDict [("score", Py.VFloat 1)]])]
           [("score", Py.VFloat 1)] [] []);
    [reflexivity | reflexivity | reflexivity | reflexivity | left; reflexivity].
Defined.

Lemma geocode_one_request_witness :
  PyStr.truthy "Nowhere" = true
  /\ requests_sent (snd (geocode_address "key" demo_server (Some "Nowhere") []))
     = [Request "https://atlas.microsoft.com/search/address/json"
          [("api-version", "1.0"); ("subscription-key", "key");
           ("query", "Nowhere"); ("limit", "1")] 10].
Proof.
  split; [reflexivity|].
  apply (geocode_one_request "key" demo_server "Nowhere" []). reflexivity.
Defined.


Lemma geocode_reads_first_result_witness :
  PyStr.truthy "1 Main St" = true
  /\ geocode_address "key"
       (constant_server (inr (Response 200 (inr crowded_body))))
       (Some "1 Main St") []
     = geocode_address "key"
         (constant_server
            (inr (Response 200
                    (inr (Py.VDict [("results", Py.VList [mock_first])])))))
         (Some "1 Main St") [].
Proof.
  split; [reflexivity|].
  apply (geocode_reads_first_result "key" _ "1 Main St" []
           [("summary", Py.VDict [("numResults", Py.VInt 2)]);
            ("results",
             Py.VList [mock_first;
                       Py.VDict [("position",
                                  Py.VDict [("lat", Py.VFloat 1);
                                            ("lon", Py.VFloat 2)])]])]
           mock_first
           [Py.VDict [("position",
                       Py.VDict [("lat", Py.VFloat 1); ("lon", Py.VFloat 2)])]]);
    reflexivity.
Defined.

Lemma geocode_undecodable_body_witness :
  PyStr.truthy "1 Main St" = true
  /\ geocode_address "key"
       (constant_server
          (inr (Response 200
                  (inl (Raise RequestException
                          "Expecting value: line 1 column 1 (char 0)")))))
       (Some "1 Main St") []
     = (inr ("", "", "", "Error: Expecting value: line 1 column 1 (char 0)"),
        [Get (geocode_request "key" "1 Main St")]).
Proof.
  split; [reflexivity|].
  apply (geocode_undecodable_body "key" _ "1 Main St" []
           (Raise RequestException "Expecting value: line 1 column 1 (char 0)"));
    reflexivity.
Defined.

Lemma geocode_body_not_object_witness :
  PyStr.truthy "1 Main St" = true
  /\ geocode_address "key"
       (constant_server (inr (Response 200 (inr (Py.VList [])))))
       (Some "1 Main St") []
     = (inr ("", "", "", "Error: 'list' object has no attribute 'get'"),
        [Get (geocode_request "key" "1 Main St")]).
Proof.
  split; [reflexivity|].
  apply (geocode_body_not_object "key" _ "1 Main St" [] (Py.VList []));
    [reflexivity | reflexivity | discriminate].
Defined.

Lemma build_address_trimmed_witness :
  build_address (List.nth 0 demo_rows []) = Some "1 Main St, Springfield, 12345"
  /\ "1 Main St, Springfield, 12345" <> ""
  /\ PyStr.strip "1 Main St, Springfield, 12345" = "1 Main St, Springfield, 12345".
Proof.
  split; [reflexivity|].
  apply (build_address_trimmed (List.nth 0 demo_rows [])). reflexivity.
Defined.

Lemma build_address_reads_four_columns_witness :
  build_address ["1"; "Ada"; ""; ""; ""; ""; ""; ""; ""; "1 Main St"; ""; "Town"; ""]
  = build_address ["2"; "Bob"; "x"; "y"; "z"; ""; ""; ""; "!"; "1 Main St"; "";
                   "Town"; ""; "more"; "columns"].
Proof.
  apply build_address_reads_four_columns.
  intros i Hi. cbn [In] in Hi.
  destruct Hi as [<-|[<-|[<-|[<-|[]]]]]; reflexivity.
Defined.

Lemma main_no_file_specified_witness :
  PyStr.truthy (input_path ["azure_geocoder.py"] "   ") = false
  /\ snd (main "key" demo_server ["azure_geocoder.py"] "   " demo_clock demo_read [])
     = [Print ("Azure Maps CSV Geocoder" ++ PyStr.newline);
        Print (PyStr.repeat "=" 50 ++ PyStr.newline);
        Input "Enter CSV file path: ";
        Print ("Error: No file specified" ++ PyStr.newline)].
Proof.
  split; [reflexivity|].
  destruct (main_no_file_specified "key" demo_server ["azure_geocoder.py"]
              "   " demo_clock demo_read) as (Hrun & _); [reflexivity|].
  rewrite Hrun. reflexivity.
Defined.

Lemma main_missing_file_witness :
  PyStr.truthy (input_path ["azure_geocoder.py"; "gone.csv"] "") = true
  /\ written (snd (main "key" demo_server ["azure_geocoder.py"; "gone.csv"] ""
                     demo_clock demo_read [])) = []
  /\ In (Print ("Error: File 'gone.csv' not found" ++ PyStr.newline))
        (snd (main "key" demo_server ["azure_geocoder.py"; "gone.csv"] ""
                demo_clock demo_read [])).
Proof.
  split; [reflexivity|].
  destruct (main_missing_file "key" demo_server ["azure_geocoder.py"; "gone.csv"]
              "" demo_clock demo_read
              (Raise FileNotFoundError
                 "[Errno 2] No such file or directory: 'gone.csv'"))
    as (Hrun & _ & Hw); [reflexivity | reflexivity | reflexivity |].
  split; [exact Hw|]. rewrite Hrun. cbn. tauto.
Defined.

Lemma main_read_error_witness :
  PyStr.truthy (input_path demo_argv "") = true
  /\ In (Print ("Error: [Errno 13] Permission denied: 'in.csv'" ++ PyStr.newline))
        (snd (main "key" demo_server demo_argv "" demo_clock
                (constant_read
                   (inl (Raise Exception "[Errno 13] Permission denied: 'in.csv'")))
                [])).
Proof.
  split; [reflexivity|].
  destruct (main_read_error "key" demo_server demo_argv "" demo_clock
              (constant_read
                 (inl (Raise Exception "[Errno 13] Permission denied: 'in.csv'")))
              (Raise Exception "[Errno 13] Permission denied: 'in.csv'"))
    as (Hrun & _); [reflexivity | reflexivity | reflexivity |].
  rewrite Hrun. cbn. tauto.
Defined.

Lemma main_empty_file_witness :
  PyStr.truthy (input_path demo_argv "") = true
  /\ In (Print ("Error: " ++ PyStr.newline))
        (snd (main "key" demo_server demo_argv "" demo_clock
                (constant_read (inr [])) []))
  /\ written (snd (main "key" demo_server demo_argv "" demo_clock
                     (constant_read (inr [])) [])) = [].
Proof.
  split; [reflexivity|].
  destruct (main_empty_file "key" demo_server demo_argv "" demo_clock
              (constant_read (inr [])))
    as (Hrun & _ & Hw); [reflexivity | reflexivity |].
  split; [|exact Hw]. rewrite Hrun. cbn. tauto.
Defined.

Lemma main_requests_follow_rows_witness :
  PyStr.truthy (input_path demo_argv "") = true
  /\ demo_read (input_path demo_argv "") = inr (demo_headers :: demo_rows)
  /\ requests_sent (snd (main "key" demo_server demo_argv "" demo_clock demo_read []))
     = [geocode_request "key" "1 Main St, Springfield, 12345";
        geocode_request "key" "Nowhere"].
Proof.
  split; [reflexivity|]. split; [reflexivity|].
  rewrite (main_requests_follow_rows "key" demo_server demo_argv "" demo_clock
             demo_read demo_headers demo_rows) by reflexivity.
  reflexivity.
Defined.

Lemma main_header_only_witness :
  PyStr.truthy (input_path demo_argv "") = true
  /\ written (snd (main "key" demo_server demo_argv "" demo_clock
                     (constant_read (inr [demo_headers])) []))
     = [(output_path demo_clock,
         [(demo_headers ++ ["Latitude"; "Longitude"; "Confidence Score";
                            "Geocoding Status"])%list])].
Proof.
  split; [reflexivity|].
  rewrite (main_header_only "key" demo_server demo_argv "" demo_clock
             (constant_read (inr [demo_headers])) demo_headers) by reflexivity.
  reflexivity.
Defined.

Lemma summary_agrees_with_table_witness :
  PyStr.truthy (input_path demo_argv "") = true
  /\ demo_read (input_path demo_argv "") = inr (demo_headers :: demo_rows)
  /\ exists outs,
       written (snd (main "key" demo_server demo_argv "" demo_clock demo_read []))
       = [(output_path demo_clock, (demo_headers ++ result_columns)%list :: outs)]
       /\ In (Print (("Successfully geocoded: "
                      ++ PyStr.of_int (Z.of_nat (List.length (successes outs))))
                     ++ PyStr.newline))
            (snd (main "key" demo_server demo_argv "" demo_clock demo_read [])).
Proof.
  split; [reflexivity|]. split; [reflexivity|].
  destruct (summary_agrees_with_table "key" demo_server demo_argv "" demo_clock
              demo_read demo_headers demo_rows)
    as (outs & Hw & _ & Hs & _); [reflexivity | reflexivity |].
  exists outs. now split.
Defined.

Lemma row_without_address_witness :
  build_address ["2"; "Bob"] = None
  /\ fst (loop_body "key" demo_server 3 2 ["2"; "Bob"] initial_state [])
     = inr (LoopState [["2"; "Bob"; ""; ""; ""; "No Address"]] 0 1 (NInt 0))
  /\ requests_sent (snd (loop_body "key" demo_server 3 2 ["2"; "Bob"]
                           initial_state [])) = [].
Proof.
  split; [reflexivity|].
  rewrite (row_without_address "key" demo_server 3 2 ["2"; "Bob"]
             initial_state []) by (try lia; reflexivity).
  split; reflexivity.
Defined.

Lemma typed_path_unwrapped_witness :
  input_path ["azure_geocoder.py"]
    ("  " ++ String PyStr.dquote ("C:\data\my file.csv" ++ String PyStr.dquote " "))
  = "C:\data\my file.csv".
Proof.
  apply (typed_path_unwrapped ["azure_geocoder.py"] "  " " " "C:\data\my file.csv");
    [simpl; lia | reflexivity | reflexivity | reflexivity].
Defined.
